(** * miniboot: the EEPROM image builder [utils/eeprom_metadata.py]

    A shallow embedding of the script that prepends the miniboot header to a
    compiled binary, and the properties of the header layout, of the input
    format dispatch and of the order of the file operations.

    Python values are modelled as follows.
    - [str] is a list of Unicode code points (so that the length of a string
      and the length of its UTF-8 encoding are different things);
    - [bytes] is a list of [Byte.byte];
    - [int] is [Z];
    - an exception is a value of [exn], and a computation that may raise
      returns a [result]. *)

From Stdlib Require Import String Ascii.
From Stdlib Require Import Strings.Byte.
From Stdlib Require Import ZArith NArith List Lia Bool.
Import ListNotations.

Open Scope Z_scope.

(** ** Python values and the exceptions the script can meet *)

Definition str := list N.
Definition bytes := list byte.

Inductive exn : Type :=
| OverflowError (msg : string)
| UnicodeEncodeError
| BinasciiError (msg : string)
| ValueError (msg : string)
| TypeError (msg : string)
| FileNotFoundError (filename : str)
| PermissionError (filename : str)
| OSError (msg : string)
| CalledProcessError (cmd : list str).

Inductive result (A : Type) : Type :=
| Ok (a : A)
| Raise (e : exn).

Arguments Ok {A} a.
Arguments Raise {A} e.

Definition rbind {A B : Type} (c : result A) (k : A -> result B) : result B :=
  match c with
  | Ok a => k a
  | Raise e => Raise e
  end.

Declare Scope result_scope.
Delimit Scope result_scope with result.
Notation "x <- c ;; k" := (rbind c (fun x => k))
  (at level 61, c at next level, right associativity) : result_scope.

(** A string literal of the source, as a [str]. *)
Definition lit (s : string) : str := map N_of_ascii (list_ascii_of_string s).

(** ** Bytes and integers *)

Definition byte_of_Z (z : Z) : byte :=
  match Byte.of_N (Z.to_N (z mod 256)) with
  | Some b => b
  | None => x00
  end.

Definition Z_of_byte (b : byte) : Z := Z.of_N (Byte.to_N b).

(** [b"..."] literals. *)
Definition blit (s : string) : bytes := map byte_of_ascii (list_ascii_of_string s).

(** The big-endian digits of [n] in base 256, [length] of them. *)
Fixpoint be_digits (n : Z) (length : nat) : bytes :=
  match length with
  | O => []
  | S k => be_digits (n / 256) k ++ [byte_of_Z (n mod 256)]
  end.

(** [n.to_bytes(length, "big")]: raises [OverflowError] when [n] is negative
    or does not fit in [length] bytes. *)
Definition to_bytes (n : Z) (length : nat) : result bytes :=
  if n <? 0 then Raise (OverflowError "can't convert negative int to unsigned")
  else if 256 ^ Z.of_nat length <=? n then Raise (OverflowError "int too big to convert")
  else Ok (be_digits n length).

(** [int.from_bytes(b, "big")], the decoder of a big-endian field. *)
Definition from_bytes (b : bytes) : Z :=
  fold_left (fun acc x => acc * 256 + Z_of_byte x) b 0.

(** ** [binascii.hexlify] and [binascii.unhexlify] *)

Definition hex_digit (d : Z) : byte :=
  if d <? 10 then byte_of_Z (48 + d) else byte_of_Z (87 + d).

Definition hexlify (data : bytes) : bytes :=
  flat_map (fun b => [hex_digit (Z_of_byte b / 16); hex_digit (Z_of_byte b mod 16)]) data.

Definition unhex_digit (c : byte) : option Z :=
  let z := Z_of_byte c in
  if (48 <=? z) && (z <=? 57) then Some (z - 48)
  else if (97 <=? z) && (z <=? 102) then Some (z - 87)
  else if (65 <=? z) && (z <=? 70) then Some (z - 55)
  else None.

(** The pairs of digits of [unhexlify], for a text of even length. *)
Fixpoint unhex_pairs (hexstr : bytes) : result bytes :=
  match hexstr with
  | [] => Ok []
  | [_] => Raise (BinasciiError "Odd-length string")
  | hi :: lo :: rest =>
      match unhex_digit hi, unhex_digit lo with
      | Some h, Some l =>
          match unhex_pairs rest with
          | Ok tl => Ok (byte_of_Z (16 * h + l) :: tl)
          | Raise e => Raise e
          end
      | _, _ => Raise (BinasciiError "Non-hexadecimal digit found")
      end
  end.

(** [binascii.unhexlify]: the length is tested first, the digits after. *)
Definition unhexlify (hexstr : bytes) : result bytes :=
  if Nat.odd (length hexstr) then Raise (BinasciiError "Odd-length string")
  else unhex_pairs hexstr.

(** ** [str] methods and the UTF-8 encoder *)

(** [s.ljust(width, fillchar)]. *)
Definition ljust (s : str) (width : nat) (fillchar : N) : str :=
  s ++ repeat fillchar (width - length s).

(** [bytes(ch, "utf-8")] for one code point.  Lone surrogates cannot be
    encoded; a code point above U+10FFFF is not a character of any Python
    string and is refused as well. *)
Definition utf8_char (c : N) : result bytes :=
  let z := Z.of_N c in
  if z <? 0x80 then Ok [byte_of_Z z]
  else if z <? 0x800 then
    Ok [byte_of_Z (Z.lor 0xC0 (Z.shiftr z 6));
        byte_of_Z (Z.lor 0x80 (Z.land z 0x3F))]
  else if z <? 0x10000 then
    if (0xD800 <=? z) && (z <=? 0xDFFF) then Raise UnicodeEncodeError
    else
      Ok [byte_of_Z (Z.lor 0xE0 (Z.shiftr z 12));
          byte_of_Z (Z.lor 0x80 (Z.land (Z.shiftr z 6) 0x3F));
          byte_of_Z (Z.lor 0x80 (Z.land z 0x3F))]
  else if z <? 0x110000 then
    Ok [byte_of_Z (Z.lor 0xF0 (Z.shiftr z 18));
        byte_of_Z (Z.lor 0x80 (Z.land (Z.shiftr z 12) 0x3F));
        byte_of_Z (Z.lor 0x80 (Z.land (Z.shiftr z 6) 0x3F));
        byte_of_Z (Z.lor 0x80 (Z.land z 0x3F))]
  else Raise UnicodeEncodeError.

(** [bytes(s, "utf-8")]. *)
Fixpoint utf8_encode (s : str) : result bytes :=
  match s with
  | [] => Ok []
  | c :: rest =>
      match utf8_char c with
      | Ok b =>
          match utf8_encode rest with
          | Ok tl => Ok (b ++ tl)
          | Raise e => Raise e
          end
      | Raise e => Raise e
      end
  end.

(** A string all of whose characters are ASCII. *)
Definition is_ascii (s : str) : bool := forallb (fun c => (c <? 128)%N) s.

(** ** [binascii.crc32]

    The checksum as the library computes it, one table look-up per byte, and
    the bit-serial definition of the standard CRC-32 (reflected polynomial
    0xEDB88320, initial value and final complement 0xFFFFFFFF) it implements. *)

Definition crc32_poly : Z := 0xEDB88320.

Definition crc32_bit (c : Z) : Z :=
  if Z.odd c then Z.lxor (Z.shiftr c 1) crc32_poly else Z.shiftr c 1.

Definition crc32_octet (c : Z) : Z := Nat.iter 8 crc32_bit c.

(** The standard CRC-32, bit by bit. *)
Definition crc32_reference (data : bytes) : Z :=
  Z.lxor
    (fold_left (fun c b => crc32_octet (Z.lxor c (Z_of_byte b))) data 0xFFFFFFFF)
    0xFFFFFFFF.

Definition crc_32_tab : list Z :=
  Eval vm_compute in map (fun i => crc32_octet (Z.of_nat i)) (seq 0 256).

Definition crc32_update (crc : Z) (b : byte) : Z :=
  Z.lxor
    (nth (Z.to_nat (Z.land (Z.lxor crc (Z_of_byte b)) 0xFF)) crc_32_tab 0)
    (Z.shiftr crc 8).

Definition crc32 (data : bytes) : Z :=
  Z.lxor (fold_left crc32_update data 0xFFFFFFFF) 0xFFFFFFFF.

(** ** The header builder *)

Definition MINIBOOT_HEADER_PREAMBLE : str := lit "ABminiboot".
Definition DEFAULT_APP_NAME : str := lit "APPNAME".
Definition DEFAULT_OUTPUT_FILE : str := lit "output.eeprom".

(** The application name as the header carries it (line 68). *)
Definition app_name_of (application_name : str) : str :=
  firstn 10 (ljust application_name 10 32%N).

Section Header.
Local Open Scope result_scope.

(** Lines 56-80 of [generate_miniboot_header], with the payload already
    read, [ctime] taken from [stat] and [current_epoch] from [time()].
    The statements keep the order of the source, so that the first
    exception raised is the one the script raises. *)
Definition eeprom_metadata_of
    (payload : bytes) (application_name : str) (ctime current_epoch : Z)
  : result bytes :=
  let payload_size := Z.of_nat (length payload) in
  payload_size_bytes <- to_bytes payload_size 2 ;;
  let payload_size_hex := hexlify payload_size_bytes in
  let crc := crc32 payload in
  crc_bytes <- to_bytes crc 4 ;;
  let crc_hex := hexlify crc_bytes in
  let header_string := MINIBOOT_HEADER_PREAMBLE in
  header_bytes <- utf8_encode header_string ;;
  let header_hex := hexlify header_bytes in
  let app_name := app_name_of application_name in
  app_bytes <- utf8_encode app_name ;;
  let app_hex := hexlify app_bytes in
  ctime_bytes <- to_bytes ctime 4 ;;
  let ctime_hex := hexlify ctime_bytes in
  epoch_bytes <- to_bytes current_epoch 4 ;;
  let epoch_hex := hexlify epoch_bytes in
  let eeprom_metadata :=
    header_hex ++ app_hex ++ ctime_hex ++ epoch_hex ++ crc_hex ++ payload_size_hex in
  unhexlify eeprom_metadata.

(** Line 82: the image is the header followed by the payload. *)
Definition eeprom_payload_of
    (payload : bytes) (application_name : str) (ctime current_epoch : Z)
  : result bytes :=
  eeprom_metadata <- eeprom_metadata_of payload application_name ctime current_epoch ;;
  Ok (eeprom_metadata ++ payload).
End Header.

(** Python's slice [b[lo:hi]]. *)
Definition slice {A : Type} (l : list A) (lo hi : nat) : list A :=
  firstn (hi - lo) (skipn lo l).

(** ** [os.path.splitext] (POSIX flavour) *)

Definition sep : N := 47.
Definition extsep : N := 46.

Fixpoint rfind_from (p : str) (c : N) (i found : Z) : Z :=
  match p with
  | [] => found
  | x :: rest => rfind_from rest c (i + 1) (if N.eqb x c then i else found)
  end.

(** [p.rfind(c)]: the highest index of [c] in [p], or [-1]. *)
Definition rfind (p : str) (c : N) : Z := rfind_from p c 0 (-1).

(** The [while] loop of [_splitext], which skips the leading dots of the file
    name: [true] when it returns from inside the loop, having met a character
    other than a dot at an index in [filenameIndex, filenameIndex + steps). *)
Fixpoint splitext_loop (p : str) (filenameIndex steps : nat) : bool :=
  match steps with
  | O => false
  | S k =>
      match nth_error p filenameIndex with
      | Some c =>
          if N.eqb c extsep then splitext_loop p (S filenameIndex) k else true
      | None => true
      end
  end.

Definition splitext (p : str) : str * str :=
  let sepIndex := rfind p sep in
  let dotIndex := rfind p extsep in
  if sepIndex <? dotIndex then
    let filenameIndex := sepIndex + 1 in
    if splitext_loop p (Z.to_nat filenameIndex) (Z.to_nat (dotIndex - filenameIndex))
    then (firstn (Z.to_nat dotIndex) p, skipn (Z.to_nat dotIndex) p)
    else (p, [])
  else (p, []).

Fixpoint str_eqb (a b : str) : bool :=
  match a, b with
  | [], [] => true
  | x :: a', y :: b' => N.eqb x y && str_eqb a' b'
  | _, _ => false
  end.

(** ** The world the script runs in

    A file system maps a path to the change time, the read permission and the
    content of the file there.  The script's own file operations, process
    invocations and prints are recorded, in order, in the trace: [EStat] and
    [ESubrun] record a call, [EOpenRead] and [EOpenWrite] a file that has
    been opened, [EFileWrite] the bytes that have reached the file. *)

Record inode : Type := { st_ctime : Z; readable : bool; content : bytes }.

Definition filesystem := str -> option inode.

Inductive printed : Type :=
| PStr (s : str)
| PInt (n : Z).

Inductive event : Type :=
| EStat (path : str)
| EOpenRead (path : str)
| EOpenWrite (path : str)
| EFileWrite (path : str) (data : bytes)
| ESubrun (cmd : list str)
| EPrint (items : list printed).

Record world : Type := { fs : filesystem; trace : list event }.

(** What the script does not control: the clock, which output paths can be
    created and the exception [open] raises for one that cannot
    ([PermissionError], [FileNotFoundError] for a missing directory, ...),
    whether a write goes through ([None]) or fails after so many bytes, and
    the outcome of an external command on a file system. *)
Record environment : Type := {
  now : Z;
  creatable : str -> bool;
  create_error : str -> exn;
  write_fault : str -> bytes -> option nat;
  run_command : filesystem -> list str -> result filesystem
}.

Definition M (A : Type) : Type := world -> result A * world.

Definition ret {A : Type} (a : A) : M A := fun w => (Ok a, w).

Definition raise {A : Type} (e : exn) : M A := fun w => (Raise e, w).

Definition bind {A B : Type} (c : M A) (k : A -> M B) : M B :=
  fun w =>
    match c w with
    | (Ok a, w') => k a w'
    | (Raise e, w') => (Raise e, w')
    end.

Definition lift {A : Type} (r : result A) : M A := fun w => (r, w).

Definition emit (e : event) : M unit :=
  fun w => (Ok tt, {| fs := fs w; trace := trace w ++ [e] |}).

Definition update (f : filesystem) (path : str) (i : inode) : filesystem :=
  fun q => if str_eqb q path then Some i else f q.

Declare Scope prog_scope.
Delimit Scope prog_scope with prog.
Notation "x <- c ;; k" := (bind c (fun x => k))
  (at level 61, c at next level, right associativity) : prog_scope.
Notation "c ;;; k" := (bind c (fun _ => k))
  (at level 61, right associativity) : prog_scope.

Section Script.
Variable env : environment.
Local Open Scope prog_scope.

(** [os.stat(path)], of which the script keeps [ctime]. *)
Definition stat (path : str) : M Z :=
  emit (EStat path) ;;;
  fun w =>
    match fs w path with
    | Some i => (Ok (st_ctime i), w)
    | None => (Raise (FileNotFoundError path), w)
    end.

(** [open(path, "rb")] followed by [read()]. *)
Definition open_read (path : str) : M bytes :=
  fun w =>
    match fs w path with
    | Some i =>
        if readable i
        then (Ok (content i), {| fs := fs w; trace := trace w ++ [EOpenRead path] |})
        else (Raise (PermissionError path), w)
    | None => (Raise (FileNotFoundError path), w)
    end.

(** [open(path, "w+b")]: the file is created, or truncated when it exists. *)
Definition open_write (path : str) : M unit :=
  fun w =>
    if creatable env path
    then (Ok tt,
          {| fs := update (fs w) path
                     {| st_ctime := now env; readable := true; content := [] |};
             trace := trace w ++ [EOpenWrite path] |})
    else (Raise (create_error env path), w).

(** [firmware.write(data)] on the file just opened, and the closing of the
    file at the end of the [with] block. *)
Definition file_write (path : str) (data : bytes) : M unit :=
  fun w =>
    match write_fault env path data with
    | None =>
        (Ok tt,
         {| fs := update (fs w) path
                    {| st_ctime := now env; readable := true; content := data |};
            trace := trace w ++ [EFileWrite path data] |})
    | Some k =>
        (Raise (OSError "No space left on device"),
         {| fs := update (fs w) path
                    {| st_ctime := now env; readable := true;
                       content := firstn k data |};
            trace := trace w ++ [EFileWrite path (firstn k data)] |})
    end.

Definition print (items : list printed) : M unit := emit (EPrint items).

(** [subprocess.run(cmd, check=True)]. *)
Definition subrun (cmd : list str) : M unit :=
  emit (ESubrun cmd) ;;;
  fun w =>
    match run_command env (fs w) cmd with
    | Ok fs' => (Ok tt, {| fs := fs'; trace := trace w |})
    | Raise e => (Raise e, w)
    end.

(** What [generate_miniboot_header] returns: the empty string on a falsy
    path, and [None] by falling off its end otherwise. *)
Inductive retval : Type :=
| RNone
| RStr (s : str).

(** Truth value of an argument that is [None] or a string. *)
Definition truthy (x : option str) : bool :=
  match x with
  | None => false
  | Some [] => false
  | Some (_ :: _) => true
  end.

Definition generate_miniboot_header
    (binary_file : option str) (application_name : str) (output_file : str)
    (print_header_result : bool) : M retval :=
  match binary_file with
  | None => ret (RStr [])
  | Some [] => ret (RStr [])
  | Some binary_file =>
      ctime <- stat binary_file ;;
      payload <- open_read binary_file ;;
      let current_epoch := now env in
      eeprom_payload <-
        lift (eeprom_payload_of payload application_name ctime current_epoch) ;;
      open_write output_file ;;;
      file_write output_file eeprom_payload ;;;
      (if print_header_result then
         print [PStr (lit "Miniboot header:   "); PStr MINIBOOT_HEADER_PREAMBLE] ;;;
         print [PStr (lit "Application name:  "); PStr (app_name_of application_name)] ;;;
         print [PStr (lit "Created timestamp: "); PInt ctime] ;;;
         print [PStr (lit "Current timestamp: "); PInt current_epoch] ;;;
         print [PStr (lit "CRC32:             "); PInt (crc32 payload)] ;;;
         print [PStr (lit "Original binary size:"); PInt (Z.of_nat (length payload))] ;;;
         print [PStr (lit "EEPROM payload size: "); PInt (Z.of_nat (length eeprom_payload))] ;;;
         print [PStr (binary_file ++ lit " -> " ++ output_file)]
       else ret tt) ;;;
      ret RNone
  end.

(** The parsed command line, the dictionary [args] of the script. *)
Record arguments : Type := {
  file : str;
  appname : str;
  output : str;
  verbose : bool;
  dont_convert : bool
}.

Definition getArguments (args : arguments) : str * str * str * bool * bool :=
  (file args, appname args, output args, verbose args, dont_convert args).

(** [check_if_binary] reads the module globals [binary_file] and
    [dont_auto_convert]; they are parameters here. *)
Definition check_if_binary
    (binary_file : str) (dont_auto_convert : bool) (check : str) : M (bool * str) :=
  let '(file_name, file_ext) := splitext check in
  if str_eqb file_ext (lit ".bin") then ret (true, check)
  else if str_eqb file_ext (lit ".hex") then
    if negb dont_auto_convert then
      subrun [lit "avr-objcopy"; lit "-I"; lit "ihex"; binary_file;
              lit "-O"; lit "binary"; file_name ++ lit ".bin"] ;;;
      ret (true, file_name ++ lit ".bin")
    else raise (ValueError "Given file was .hex, but not allowed to convert")
  else ret (false, check).

(** The body of [if __name__ == "__main__"], after [parse_args]. *)
Definition main (args : arguments) : M retval :=
  let '(binary_file, application_name, output_file, print_header_result,
        dont_auto_convert) := getArguments args in
  r <- check_if_binary binary_file dont_auto_convert binary_file ;;
  let '(is_valid, new_filepath) := r in
  if negb is_valid then raise (TypeError "Given file was not a .bin or a .hex")
  else
    generate_miniboot_header (Some new_filepath) application_name output_file
      print_header_result.

End Script.

(** ** Notions used in the statements *)

(** The encoding of an ASCII string, one byte per character. *)
Definition ascii_bytes (s : str) : bytes := map (fun c => byte_of_Z (Z.of_N c)) s.

(** The header as the concatenation of its six fields, [name] being the
    encoded application name. *)
Definition laid_out (name payload : bytes) (ctime current_epoch : Z) : bytes :=
  blit "ABminiboot" ++ name ++ be_digits ctime 4 ++ be_digits current_epoch 4
    ++ be_digits (crc32 payload) 4 ++ be_digits (Z.of_nat (length payload)) 2.

(** The fields of a header as a reader of the image finds them, each at the
    offset the source documents (lines 45-51). *)
Record fields : Type := {
  f_preamble : str;
  f_name : str;
  f_ctime : Z;
  f_epoch : Z;
  f_crc : Z;
  f_length : Z
}.

Definition ascii_decode (b : bytes) : str := map Byte.to_N b.

Definition decode_header (header : bytes) : fields :=
  {| f_preamble := ascii_decode (slice header 0 10);
     f_name := ascii_decode (slice header 10 20);
     f_ctime := from_bytes (slice header 20 24);
     f_epoch := from_bytes (slice header 24 28);
     f_crc := from_bytes (slice header 28 32);
     f_length := from_bytes (slice header 32 34) |}.

Definition split_image (image : bytes) : bytes * bytes :=
  (firstn 34 image, skipn 34 image).

(** Lower-casing of the ASCII letters of a string. *)
Definition lower (s : str) : str :=
  map (fun c => if ((65 <=? c) && (c <=? 90))%N then (c + 32)%N else c) s.

(** The events that create or fill an output file. *)
Definition is_output (e : event) : bool :=
  match e with
  | EOpenWrite _ | EFileWrite _ _ => true
  | _ => false
  end.

(** A small world for the examples: one readable 10-byte file ["fw.bin"], a
    converter that is not installed, and every output path writable. *)
Definition demo_fs : filesystem :=
  fun p =>
    if str_eqb p (lit "fw.bin")
    then Some {| st_ctime := 1700000000; readable := true; content := repeat x00 10 |}
    else None.

Definition demo_env : environment :=
  {| now := 1700000100;
     creatable := fun _ => true;
     create_error := PermissionError;
     write_fault := fun _ _ => None;
     run_command := fun _ cmd => Raise (CalledProcessError cmd) |}.

Definition demo_world : world := {| fs := demo_fs; trace := [] |}.

(** A world with one file of 65536 bytes, ["big.bin"]. *)
Definition big_fs : filesystem :=
  fun p =>
    if str_eqb p (lit "big.bin")
    then Some {| st_ctime := 1700000000; readable := true;
                 content := repeat x00 (Z.to_nat 65536) |}
    else None.

Definition big_world : world := {| fs := big_fs; trace := [] |}.

Definition demo_args (input name : str) (dont : bool) : arguments :=
  {| file := input;
     appname := name;
     output := lit "out.eeprom";
     verbose := false;
     dont_convert := dont |}.

(** Equalities of bitwise expressions, bit by bit. *)
Ltac bitwise :=
  apply Z.bits_inj'; intros ? ?;
  repeat rewrite ?Z.lxor_spec, ?Z.land_spec, ?Z.lor_spec;
  repeat match goal with |- context [Z.testbit ?a ?n] => destruct (Z.testbit a n) end;
  reflexivity.

(** The code points [bytes(s, "utf-8")] accepts: all but the surrogates. *)
Definition encodable (c : N) : bool :=
  ((c <? 0xD800) || ((0xDFFF <? c) && (c <? 0x110000)))%N.


(** The calls of an external command. *)
Definition is_subrun (e : event) : bool :=
  match e with
  | ESubrun _ => true
  | _ => false
  end.

(** The command line of the converter (line 159): [binary_file] is the
    module global, [file_name] the path under conversion without its
    extension. *)
Definition objcopy_command (binary_file file_name : str) : list str :=
  [lit "avr-objcopy"; lit "-I"; lit "ihex"; binary_file;
   lit "-O"; lit "binary"; file_name ++ lit ".bin"].

(** A directory prefix: empty, or ending with the separator. *)
Definition dir_prefix (p : str) : Prop := p = [] \/ exists d, p = d ++ [sep].

(** A world where the converter writes the sibling file: a 3-byte
    ["fw.bin"] of change time 1700000050 beside ["fw.hex"]. *)
Definition hex_fs : filesystem :=
  fun p =>
    if str_eqb p (lit "fw.hex")
    then Some {| st_ctime := 1700000000; readable := true; content := blit ":00000001FF" |}
    else None.

Definition hex_env : environment :=
  {| now := 1700000100;
     creatable := fun _ => true;
     create_error := PermissionError;
     write_fault := fun _ _ => None;
     run_command :=
       fun f cmd =>
         Ok (update f (lit "fw.bin")
               {| st_ctime := 1700000050; readable := true;
                  content := [x01; x02; x03] |}) |}.

Definition hex_world : world := {| fs := hex_fs; trace := [] |}.

(** An environment whose clock has passed 2^32 seconds. *)
Definition late_env : environment :=
  {| now := 2 ^ 32;
     creatable := fun _ => true;
     create_error := PermissionError;
     write_fault := fun _ _ => None;
     run_command := fun _ cmd => Raise (CalledProcessError cmd) |}.

(** * Properties *)

(** ** Bytes, big-endian fields and hexadecimal text *)

Lemma Z_of_byte_range (b : byte) : 0 <= Z_of_byte b < 256.
Proof.
  unfold Z_of_byte. pose proof (Byte.to_N_bounded b). lia.
Qed.

Lemma byte_of_Z_of_byte (b : byte) : byte_of_Z (Z_of_byte b) = b.
Proof.
  unfold byte_of_Z. rewrite Z.mod_small by apply Z_of_byte_range.
  unfold Z_of_byte. now rewrite N2Z.id, Byte.of_to_N.
Qed.

Lemma Z_of_byte_of_Z (z : Z) : Z_of_byte (byte_of_Z z) = z mod 256.
Proof.
  unfold byte_of_Z, Z_of_byte.
  assert (Hz : 0 <= z mod 256 < 256) by (apply Z.mod_pos_bound; lia).
  destruct (Byte.of_N (Z.to_N (z mod 256))) as [b|] eqn:E.
  - apply Byte.to_of_N in E. rewrite E. apply Z2N.id. lia.
  - apply Byte.of_N_None_iff in E. lia.
Qed.

Lemma length_be_digits (k : nat) : forall n, length (be_digits n k) = k.
Proof.
  induction k as [|k IH]; intro n; simpl.
  - reflexivity.
  - rewrite length_app, IH. simpl. lia.
Qed.

Lemma from_bytes_snoc (a : bytes) (x : byte) :
  from_bytes (a ++ [x]) = from_bytes a * 256 + Z_of_byte x.
Proof.
  unfold from_bytes. now rewrite fold_left_app.
Qed.

Lemma from_bytes_be_digits (k : nat) :
  forall n, 0 <= n < 256 ^ Z.of_nat k -> from_bytes (be_digits n k) = n.
Proof.
  induction k as [|k IH]; intros n Hn.
  - simpl in *. unfold from_bytes. simpl. lia.
  - cbn [be_digits]. rewrite from_bytes_snoc, Z_of_byte_of_Z.
    rewrite Nat2Z.inj_succ, Z.pow_succ_r in Hn by lia.
    rewrite IH.
    + rewrite Z.mod_mod by lia. pose proof (Z.div_mod n 256 ltac:(lia)). lia.
    + split.
      * apply Z.div_pos; lia.
      * apply Z.div_lt_upper_bound; lia.
Qed.

Lemma to_bytes_ok (n : Z) (k : nat) (b : bytes) :
  to_bytes n k = Ok b <-> 0 <= n < 256 ^ Z.of_nat k /\ b = be_digits n k.
Proof.
  unfold to_bytes.
  destruct (n <? 0) eqn:E1; [|destruct (256 ^ Z.of_nat k <=? n) eqn:E2].
  - apply Z.ltb_lt in E1. split; [discriminate | lia].
  - apply Z.leb_le in E2. split; [discriminate | lia].
  - apply Z.ltb_ge in E1. apply Z.leb_gt in E2.
    split.
    + intro H. injection H as <-. auto.
    + intros [_ ->]. reflexivity.
Qed.

Lemma to_bytes_too_big (n : Z) (k : nat) :
  256 ^ Z.of_nat k <= n ->
  to_bytes n k = Raise (OverflowError "int too big to convert").
Proof.
  intro H. unfold to_bytes.
  assert (0 < 256 ^ Z.of_nat k) by (apply Z.pow_pos_nonneg; lia).
  destruct (n <? 0) eqn:E1.
  - apply Z.ltb_lt in E1. lia.
  - apply Z.leb_le in H. now rewrite H.
Qed.

Lemma hex_digits_of_byte (b : byte) :
  unhex_digit (hex_digit (Z_of_byte b / 16)) = Some (Z_of_byte b / 16) /\
  unhex_digit (hex_digit (Z_of_byte b mod 16)) = Some (Z_of_byte b mod 16).
Proof.
  destruct b; split; reflexivity.
Qed.

Lemma hexlify_app (a b : bytes) : hexlify (a ++ b) = hexlify a ++ hexlify b.
Proof.
  unfold hexlify. apply flat_map_app.
Qed.

Lemma length_hexlify (data : bytes) :
  length (hexlify data) = (2 * length data)%nat.
Proof.
  induction data as [|b data IH].
  - reflexivity.
  - change (hexlify (b :: data))
      with (hex_digit (Z_of_byte b / 16) :: hex_digit (Z_of_byte b mod 16) :: hexlify data).
    cbn [length]. rewrite IH. lia.
Qed.

Lemma unhex_pairs_hexlify (data : bytes) : unhex_pairs (hexlify data) = Ok data.
Proof.
  induction data as [|b data IH].
  - reflexivity.
  - change (hexlify (b :: data))
      with (hex_digit (Z_of_byte b / 16) :: hex_digit (Z_of_byte b mod 16) :: hexlify data).
    cbn [unhex_pairs].
    destruct (hex_digits_of_byte b) as [-> ->]. rewrite IH.
    replace (16 * (Z_of_byte b / 16) + Z_of_byte b mod 16) with (Z_of_byte b)
      by (pose proof (Z.div_mod (Z_of_byte b) 16 ltac:(lia)); lia).
    now rewrite byte_of_Z_of_byte.
Qed.

Lemma unhexlify_hexlify (data : bytes) : unhexlify (hexlify data) = Ok data.
Proof.
  unfold unhexlify. rewrite length_hexlify.
  replace (Nat.odd (2 * length data)) with false.
  - apply unhex_pairs_hexlify.
  - symmetry. rewrite <- Nat.negb_even, Nat.even_mul. reflexivity.
Qed.

(** ** The application name *)

Lemma utf8_encode_ascii (s : str) :
  is_ascii s = true -> utf8_encode s = Ok (ascii_bytes s).
Proof.
  induction s as [|c s IH]; simpl; intro H.
  - reflexivity.
  - apply andb_prop in H as [Hc Hs]. apply N.ltb_lt in Hc.
    rewrite (IH Hs). unfold utf8_char.
    assert (E : (Z.of_N c <? 128) = true) by (apply Z.ltb_lt; lia).
    now rewrite E.
Qed.

Lemma in_firstn {A : Type} (n : nat) (l : list A) (x : A) :
  In x (firstn n l) -> In x l.
Proof.
  intro H. rewrite <- (firstn_skipn n l). apply in_or_app. now left.
Qed.

Lemma length_app_name_of (a : str) : length (app_name_of a) = 10%nat.
Proof.
  unfold app_name_of, ljust.
  rewrite length_firstn, length_app, repeat_length. lia.
Qed.

Lemma is_ascii_app_name_of (a : str) :
  is_ascii a = true -> is_ascii (app_name_of a) = true.
Proof.
  unfold app_name_of, ljust, is_ascii. intro H.
  apply forallb_forall. intros c Hc.
  apply in_firstn in Hc.
  apply in_app_or in Hc as [Hc | Hc].
  - now apply (proj1 (forallb_forall _ _) H).
  - apply repeat_spec in Hc. now subst c.
Qed.

Lemma length_ascii_bytes (s : str) : length (ascii_bytes s) = length s.
Proof.
  apply length_map.
Qed.

(** ** The checksum: the table-driven code computes the standard CRC-32 *)

Lemma crc32_bit_lxor (x y : Z) :
  crc32_bit (Z.lxor x y) = Z.lxor (crc32_bit x) (crc32_bit y).
Proof.
  unfold crc32_bit.
  rewrite <- !Z.bit0_odd, Z.lxor_spec, Z.shiftr_lxor.
  generalize (Z.shiftr x 1) (Z.shiftr y 1) crc32_poly. intros a b p.
  destruct (Z.testbit x 0), (Z.testbit y 0); cbn [xorb]; bitwise.
Qed.

Lemma iter_crc32_bit_lxor (k : nat) (x y : Z) :
  Nat.iter k crc32_bit (Z.lxor x y)
  = Z.lxor (Nat.iter k crc32_bit x) (Nat.iter k crc32_bit y).
Proof.
  induction k as [|k IH]; simpl.
  - reflexivity.
  - rewrite IH. apply crc32_bit_lxor.
Qed.

Lemma crc32_bit_double (y : Z) : crc32_bit (Z.shiftl y 1) = y.
Proof.
  unfold crc32_bit.
  rewrite <- Z.bit0_odd, Z.shiftl_spec_low by lia.
  rewrite Z.shiftr_shiftl_l by lia. apply Z.shiftl_0_r.
Qed.

Lemma iter_crc32_bit_shiftl (k : nat) :
  forall y, Nat.iter k crc32_bit (Z.shiftl y (Z.of_nat k)) = y.
Proof.
  induction k as [|k IH]; intro y.
  - apply Z.shiftl_0_r.
  - cbn [Nat.iter nat_rect].
    replace (Z.of_nat (S k)) with (1 + Z.of_nat k) by lia.
    rewrite <- Z.shiftl_shiftl by lia.
    change (nat_rect (fun _ => Z) (Z.shiftl (Z.shiftl y 1) (Z.of_nat k))
              (fun _ => crc32_bit) k)
      with (Nat.iter k crc32_bit (Z.shiftl (Z.shiftl y 1) (Z.of_nat k))).
    rewrite IH. apply crc32_bit_double.
Qed.

Lemma low_octet_split (x : Z) :
  x = Z.lxor (Z.land x 0xFF) (Z.shiftl (Z.shiftr x 8) 8).
Proof.
  apply Z.bits_inj'. intros n Hn.
  rewrite Z.lxor_spec, Z.land_spec.
  change 0xFF with (Z.ones 8). rewrite Z.testbit_ones_nonneg by lia.
  destruct (n <? 8) eqn:E.
  - apply Z.ltb_lt in E. rewrite Z.shiftl_spec_low by lia.
    now rewrite andb_true_r, xorb_false_r.
  - apply Z.ltb_ge in E.
    rewrite Z.shiftl_spec, Z.shiftr_spec by lia.
    replace (n - 8 + 8) with n by lia.
    now rewrite andb_false_r, xorb_false_l.
Qed.

Lemma crc32_octet_split (x : Z) :
  crc32_octet x = Z.lxor (crc32_octet (Z.land x 0xFF)) (Z.shiftr x 8).
Proof.
  rewrite (low_octet_split x) at 1. unfold crc32_octet.
  rewrite iter_crc32_bit_lxor.
  pose proof (iter_crc32_bit_shiftl 8 (Z.shiftr x 8)) as H.
  change (Z.of_nat 8) with 8 in H. now rewrite H.
Qed.

Lemma crc_32_tab_spec (i : Z) :
  0 <= i < 256 -> nth (Z.to_nat i) crc_32_tab 0 = crc32_octet i.
Proof.
  intro Hi.
  assert (E : crc_32_tab = map (fun i => crc32_octet (Z.of_nat i)) (seq 0 256))
    by (vm_compute; reflexivity).
  rewrite E.
  rewrite (nth_indep _ 0 (crc32_octet (Z.of_nat 0)))
    by (rewrite length_map, length_seq; lia).
  rewrite (map_nth (fun i => crc32_octet (Z.of_nat i))).
  rewrite seq_nth by lia. f_equal. lia.
Qed.

Lemma crc32_update_spec (crc : Z) (b : byte) :
  crc32_update crc b = crc32_octet (Z.lxor crc (Z_of_byte b)).
Proof.
  unfold crc32_update.
  pose proof (Z_of_byte_range b) as Hb.
  rewrite crc_32_tab_spec.
  - rewrite (crc32_octet_split (Z.lxor crc (Z_of_byte b))).
    f_equal. rewrite Z.shiftr_lxor.
    rewrite (Z.shiftr_div_pow2 (Z_of_byte b)) by lia.
    rewrite (Z.div_small (Z_of_byte b)) by (change (2 ^ 8) with 256; lia).
    now rewrite Z.lxor_0_r.
  - change 0xFF with (Z.ones 8). rewrite Z.land_ones by lia.
    apply Z.mod_pos_bound. reflexivity.
Qed.

Lemma crc32_is_reference (data : bytes) : crc32 data = crc32_reference data.
Proof.
  unfold crc32, crc32_reference. f_equal.
  generalize 0xFFFFFFFF. induction data as [|b data IH]; intro c; simpl.
  - reflexivity.
  - rewrite crc32_update_spec. apply IH.
Qed.

Lemma lxor_range (n a b : Z) :
  0 < n -> 0 <= a < 2 ^ n -> 0 <= b < 2 ^ n -> 0 <= Z.lxor a b < 2 ^ n.
Proof.
  intros Hn Ha Hb.
  assert (H0 : 0 <= Z.lxor a b) by (apply Z.lxor_nonneg; lia).
  split; [exact H0|].
  assert (Hlog : forall c, 0 <= c < 2 ^ n -> Z.log2 c < n).
  { intros c Hc. destruct (Z.eq_dec c 0) as [->|Hne].
    - simpl. lia.
    - apply Z.log2_lt_pow2; lia. }
  destruct (Z.eq_dec (Z.lxor a b) 0) as [->|Hne].
  - apply Z.pow_pos_nonneg; lia.
  - apply Z.log2_lt_pow2; [lia|].
    eapply Z.le_lt_trans; [apply Z.log2_lxor; lia|].
    apply Z.max_lub_lt; auto.
Qed.

Lemma crc32_bit_range (c : Z) :
  0 <= c < 2 ^ 32 -> 0 <= crc32_bit c < 2 ^ 32.
Proof.
  intro Hc. unfold crc32_bit.
  assert (Hs : 0 <= Z.shiftr c 1 < 2 ^ 32).
  { rewrite Z.shiftr_div_pow2 by lia. change (2 ^ 1) with 2.
    split; [apply Z.div_pos; lia|].
    apply Z.div_lt_upper_bound; lia. }
  destruct (Z.odd c); [|exact Hs].
  apply lxor_range; [lia | exact Hs | unfold crc32_poly; lia].
Qed.

Lemma crc32_octet_range (c : Z) :
  0 <= c < 2 ^ 32 -> 0 <= crc32_octet c < 2 ^ 32.
Proof.
  intro Hc. unfold crc32_octet.
  do 8 (rewrite Nat.iter_succ; apply crc32_bit_range). exact Hc.
Qed.

Lemma crc32_range (data : bytes) : 0 <= crc32 data < 2 ^ 32.
Proof.
  rewrite crc32_is_reference. unfold crc32_reference.
  assert (H : forall c, 0 <= c < 2 ^ 32 ->
            0 <= fold_left (fun c b => crc32_octet (Z.lxor c (Z_of_byte b))) data c
              < 2 ^ 32).
  { induction data as [|b data IH]; intros c Hc; simpl.
    - exact Hc.
    - apply IH. apply crc32_octet_range.
      pose proof (Z_of_byte_range b).
      apply lxor_range; lia. }
  apply lxor_range; [lia | apply H; lia | lia].
Qed.

(** ** The layout of the header *)

Lemma utf8_encode_preamble :
  utf8_encode MINIBOOT_HEADER_PREAMBLE = Ok (blit "ABminiboot").
Proof.
  reflexivity.
Qed.

Lemma unhexlify_fields (a b c d e f : bytes) :
  unhexlify (hexlify a ++ hexlify b ++ hexlify c ++ hexlify d ++ hexlify e ++ hexlify f)
  = Ok (a ++ b ++ c ++ d ++ e ++ f).
Proof.
  rewrite <- !hexlify_app. apply unhexlify_hexlify.
Qed.

Lemma eeprom_metadata_of_intro
    (payload : bytes) (application_name : str) (ctime current_epoch : Z)
    (name : bytes) :
  Z.of_nat (length payload) < 65536 ->
  0 <= ctime < 2 ^ 32 ->
  0 <= current_epoch < 2 ^ 32 ->
  utf8_encode (app_name_of application_name) = Ok name ->
  eeprom_metadata_of payload application_name ctime current_epoch
  = Ok (laid_out name payload ctime current_epoch).
Proof.
  intros Hsize Hctime Hepoch Hname.
  unfold eeprom_metadata_of.
  rewrite (proj2 (to_bytes_ok (Z.of_nat (length payload)) 2 _))
    by (split; [change (256 ^ Z.of_nat 2) with 65536; lia | reflexivity]).
  cbn [rbind].
  rewrite (proj2 (to_bytes_ok (crc32 payload) 4 _))
    by (split; [apply crc32_range | reflexivity]).
  cbn [rbind]. rewrite utf8_encode_preamble. cbn [rbind].
  rewrite Hname. cbn [rbind].
  rewrite (proj2 (to_bytes_ok ctime 4 _)) by (split; [exact Hctime | reflexivity]).
  cbn [rbind].
  rewrite (proj2 (to_bytes_ok current_epoch 4 _))
    by (split; [exact Hepoch | reflexivity]).
  cbn [rbind]. apply unhexlify_fields.
Qed.

Lemma eeprom_metadata_of_inv
    (payload : bytes) (application_name : str) (ctime current_epoch : Z)
    (header : bytes) :
  eeprom_metadata_of payload application_name ctime current_epoch = Ok header ->
  exists name,
    utf8_encode (app_name_of application_name) = Ok name /\
    Z.of_nat (length payload) < 65536 /\
    0 <= ctime < 2 ^ 32 /\
    0 <= current_epoch < 2 ^ 32 /\
    header = laid_out name payload ctime current_epoch.
Proof.
  unfold eeprom_metadata_of. intro H.
  destruct (to_bytes (Z.of_nat (length payload)) 2) as [sz|] eqn:Esz;
    [|discriminate H].
  cbn [rbind] in H.
  destruct (to_bytes (crc32 payload) 4) as [cr|] eqn:Ecr; [|discriminate H].
  cbn [rbind] in H. rewrite utf8_encode_preamble in H. cbn [rbind] in H.
  destruct (utf8_encode (app_name_of application_name)) as [name|] eqn:Ename;
    [|discriminate H].
  cbn [rbind] in H.
  destruct (to_bytes ctime 4) as [ct|] eqn:Ect; [|discriminate H].
  cbn [rbind] in H.
  destruct (to_bytes current_epoch 4) as [ep|] eqn:Eep; [|discriminate H].
  cbn [rbind] in H. rewrite unhexlify_fields in H. injection H as <-.
  apply to_bytes_ok in Esz as [Hsz ->]. apply to_bytes_ok in Ecr as [_ ->].
  apply to_bytes_ok in Ect as [Hct ->]. apply to_bytes_ok in Eep as [Hep ->].
  exists name. change (256 ^ Z.of_nat 2) with 65536 in Hsz.
  change (256 ^ Z.of_nat 4) with (2 ^ 32) in Hct, Hep.
  repeat split; try lia.
Qed.

Lemma length_laid_out (name payload : bytes) (ctime current_epoch : Z) :
  length (laid_out name payload ctime current_epoch) = (24 + length name)%nat.
Proof.
  unfold laid_out. rewrite !length_app, !length_be_digits. simpl. lia.
Qed.

(** Slices of a list given as a concatenation. *)
Lemma firstn_exact {A : Type} (n : nat) (a b : list A) :
  length a = n -> firstn n (a ++ b) = a.
Proof.
  intros <-. rewrite firstn_app, Nat.sub_diag, firstn_all. simpl.
  apply app_nil_r.
Qed.

Lemma skipn_exact {A : Type} (n : nat) (a b : list A) :
  length a = n -> skipn n (a ++ b) = b.
Proof.
  intros <-. rewrite skipn_app, Nat.sub_diag, skipn_all. reflexivity.
Qed.

Lemma slice_exact {A : Type} (lo hi : nat) (a b c : list A) :
  length a = lo -> length b = (hi - lo)%nat -> slice (a ++ b ++ c) lo hi = b.
Proof.
  intros Ha Hb. unfold slice.
  rewrite (skipn_exact lo a _ Ha). now apply firstn_exact.
Qed.

(** ** The input format dispatch *)

Lemma str_eqb_eq (a b : str) : str_eqb a b = true <-> a = b.
Proof.
  revert b. induction a as [|x a IH]; intros [|y b]; simpl;
    try (split; [discriminate | discriminate]); try tauto.
  rewrite andb_true_iff, N.eqb_eq, IH.
  split; [intros [-> ->]; reflexivity | intro H; injection H; auto].
Qed.

Lemma str_eqb_neq (a b : str) : a <> b -> str_eqb a b = false.
Proof.
  intro H. destruct (str_eqb a b) eqn:E; [|reflexivity].
  apply str_eqb_eq in E. contradiction.
Qed.

Lemma check_if_binary_unrecognized
    (env : environment) (binary_file : str) (dont_auto_convert : bool)
    (check : str) (w : world) :
  snd (splitext check) <> lit ".bin" ->
  snd (splitext check) <> lit ".hex" ->
  check_if_binary env binary_file dont_auto_convert check w = (Ok (false, check), w).
Proof.
  intros Hbin Hhex. unfold check_if_binary.
  destruct (splitext check) as [file_name file_ext]. simpl in Hbin, Hhex.
  now rewrite (str_eqb_neq _ _ Hbin), (str_eqb_neq _ _ Hhex).
Qed.

(** C5.  When the extension of the input path is [".hex"] and the caller has
    disallowed the conversion, the run fails with the script's [ValueError]
    (the error the specification names UnsupportedInputError) and leaves the
    world as it found it: the trace gains no event, so the converter is not
    invoked and no file is opened for writing, and the file system is the
    same. *)
Theorem hex_input_without_conversion_fails
    (env : environment) (args : arguments) (w : world) :
  snd (splitext (file args)) = lit ".hex" ->
  dont_convert args = true ->
  main env args w
  = (Raise (ValueError "Given file was .hex, but not allowed to convert"), w).
Proof.
  intros Hext Hflag. unfold main, getArguments, bind, check_if_binary.
  destruct (splitext (file args)) as [file_name file_ext]. simpl in Hext.
  subst file_ext. rewrite Hflag. reflexivity.
Qed.

(** C6.  When the extension of the input path is neither [".bin"] nor
    [".hex"], the run fails with the script's [TypeError] (the error the
    specification names UnrecognizedFormatError) and leaves the world as it
    found it: nothing has been read, no header has been computed and no file
    has been opened for writing. *)
Theorem unrecognized_extension_fails
    (env : environment) (args : arguments) (w : world) :
  snd (splitext (file args)) <> lit ".bin" ->
  snd (splitext (file args)) <> lit ".hex" ->
  main env args w = (Raise (TypeError "Given file was not a .bin or a .hex"), w).
Proof.
  intros Hbin Hhex. unfold main, getArguments, bind.
  now rewrite check_if_binary_unrecognized.
Qed.

(** C9.  Called with a falsy path ([None] or the empty string),
    [generate_miniboot_header] returns the empty string and leaves the world
    as it found it: no [stat], no read, no header, no output file. *)
Theorem falsy_path_returns_empty_string
    (env : environment) (binary_file : option str) (application_name : str)
    (output_file : str) (print_header_result : bool) (w : world) :
  truthy binary_file = false ->
  generate_miniboot_header env binary_file application_name output_file
    print_header_result w
  = (Ok (RStr []), w).
Proof.
  destruct binary_file as [[|c path]|]; simpl; intro H;
    [reflexivity | discriminate H | reflexivity].
Qed.

(** C10.  The dispatch compares the extension by exact equality.  A path is
    accepted only when its extension is exactly [".bin"] or [".hex"]; a path
    whose extension has a letter in upper case, as every other casing of
    these two has ([".BIN"], [".Hex"], ...), is classified as unrecognized
    and nothing is run. *)
Theorem extension_match_is_case_sensitive
    (env : environment) (binary_file : str) (dont_auto_convert : bool)
    (check : str) (w : world) :
  (forall path w',
      check_if_binary env binary_file dont_auto_convert check w = (Ok (true, path), w') ->
      snd (splitext check) = lit ".bin" \/ snd (splitext check) = lit ".hex") /\
  (snd (splitext check) <> lower (snd (splitext check)) ->
   check_if_binary env binary_file dont_auto_convert check w = (Ok (false, check), w)).
Proof.
  split.
  - intros path w' H.
    destruct (str_eqb (snd (splitext check)) (lit ".bin")) eqn:Ebin;
      [left; now apply str_eqb_eq|].
    destruct (str_eqb (snd (splitext check)) (lit ".hex")) eqn:Ehex;
      [right; now apply str_eqb_eq|].
    unfold check_if_binary in H.
    destruct (splitext check) as [file_name file_ext]. simpl in Ebin, Ehex.
    rewrite Ebin, Ehex in H. discriminate H.
  - intro Hne. apply check_if_binary_unrecognized.
    + intro E. rewrite E in Hne. now apply Hne.
    + intro E. rewrite E in Hne. now apply Hne.
Qed.

(** ** Reading the header back *)

Lemma ascii_decode_ascii_bytes (s : str) :
  is_ascii s = true -> ascii_decode (ascii_bytes s) = s.
Proof.
  unfold ascii_decode, ascii_bytes. rewrite map_map.
  induction s as [|c s IH]; simpl; intro H.
  - reflexivity.
  - apply andb_prop in H as [Hc Hs]. apply N.ltb_lt in Hc.
    rewrite (IH Hs). f_equal.
    apply N2Z.inj. change (Z.of_N (Byte.to_N ?b)) with (Z_of_byte b).
    rewrite Z_of_byte_of_Z. apply Z.mod_small. lia.
Qed.

Lemma slice_of (lo hi : nat) (l a b c : bytes) :
  l = a ++ b ++ c -> length a = lo -> length b = (hi - lo)%nat ->
  slice l lo hi = b.
Proof.
  intros ->. apply slice_exact.
Qed.

Lemma laid_out_fields (name payload : bytes) (ctime current_epoch : Z) :
  length name = 10%nat ->
  let header := laid_out name payload ctime current_epoch in
  slice header 0 10 = blit "ABminiboot" /\
  slice header 10 20 = name /\
  slice header 20 24 = be_digits ctime 4 /\
  slice header 24 28 = be_digits current_epoch 4 /\
  slice header 28 32 = be_digits (crc32 payload) 4 /\
  slice header 32 34 = be_digits (Z.of_nat (length payload)) 2.
Proof.
  intros Hname header. subst header. unfold laid_out.
  set (p := blit "ABminiboot").
  set (c := be_digits ctime 4). set (e := be_digits current_epoch 4).
  set (k := be_digits (crc32 payload) 4).
  set (z := be_digits (Z.of_nat (length payload)) 2).
  assert (Hp : length p = 10%nat) by reflexivity.
  assert (Hc : length c = 4%nat) by apply length_be_digits.
  assert (He : length e = 4%nat) by apply length_be_digits.
  assert (Hk : length k = 4%nat) by apply length_be_digits.
  assert (Hz : length z = 2%nat) by apply length_be_digits.
  repeat apply conj.
  - apply (slice_of 0 10 _ [] p (name ++ c ++ e ++ k ++ z)); auto.
  - apply (slice_of 10 20 _ p name (c ++ e ++ k ++ z)); auto.
  - apply (slice_of 20 24 _ (p ++ name) c (e ++ k ++ z));
      rewrite <- ?app_assoc, ?length_app; auto; lia.
  - apply (slice_of 24 28 _ (p ++ name ++ c) e (k ++ z));
      rewrite <- ?app_assoc, ?length_app; auto; lia.
  - apply (slice_of 28 32 _ (p ++ name ++ c ++ e) k z);
      rewrite <- ?app_assoc, ?length_app; auto; lia.
  - apply (slice_of 32 34 _ (p ++ name ++ c ++ e ++ k) z []);
      rewrite <- ?app_assoc, ?length_app, ?app_nil_r; auto; lia.
Qed.

(** C8.  For a payload of at most 65535 bytes, an ASCII application name
    and two timestamps that fit 32 bits, the image is produced, its first 34
    bytes decode field by field to the values it was built from, and what
    follows them is the payload: the preamble decodes to ["ABminiboot"], the
    name to the first ten characters of the name given followed by spaces,
    the two times to the times given, the checksum to the standard CRC-32 of
    the payload and the length to its length. *)
Theorem image_roundtrip
    (payload : bytes) (application_name : str) (ctime current_epoch : Z) :
  Z.of_nat (length payload) <= 65535 ->
  is_ascii application_name = true ->
  0 <= ctime < 2 ^ 32 ->
  0 <= current_epoch < 2 ^ 32 ->
  exists image,
    eeprom_payload_of payload application_name ctime current_epoch = Ok image /\
    snd (split_image image) = payload /\
    decode_header (fst (split_image image))
    = {| f_preamble := lit "ABminiboot";
         f_name :=
           firstn 10
             (application_name ++ repeat 32%N (10 - length application_name));
         f_ctime := ctime;
         f_epoch := current_epoch;
         f_crc := crc32_reference payload;
         f_length := Z.of_nat (length payload) |}.
Proof.
  intros Hsize Hascii Hctime Hepoch.
  pose proof (is_ascii_app_name_of _ Hascii) as Hname.
  set (name := ascii_bytes (app_name_of application_name)).
  assert (Hlen : length name = 10%nat)
    by (unfold name; rewrite length_ascii_bytes; apply length_app_name_of).
  exists (laid_out name payload ctime current_epoch ++ payload).
  assert (H34 : length (laid_out name payload ctime current_epoch) = 34%nat)
    by (rewrite length_laid_out, Hlen; reflexivity).
  split; [|split].
  - unfold eeprom_payload_of.
    rewrite (eeprom_metadata_of_intro _ _ _ _ name);
      [reflexivity | lia | assumption | assumption |].
    now apply utf8_encode_ascii.
  - unfold split_image. cbn [snd]. now apply skipn_exact.
  - unfold split_image. cbn [fst]. rewrite (firstn_exact 34 _ _ H34).
    destruct (laid_out_fields name payload ctime current_epoch Hlen)
      as (Hp & Hn & Hc & He & Hk & Hz).
    unfold decode_header. rewrite Hp, Hn, Hc, He, Hk, Hz.
    rewrite !from_bytes_be_digits;
      [| change (256 ^ Z.of_nat 2) with 65536; lia
       | apply crc32_range | assumption | assumption ].
    unfold name. rewrite (ascii_decode_ascii_bytes _ Hname).
    rewrite crc32_is_reference. unfold app_name_of, ljust. reflexivity.
Qed.

(** ** The checksum field *)

(** In every header produced for an ASCII application name, the four
    bytes at offsets 28..31 are the big-endian encoding of the standard
    CRC-32 of the payload, and decode to it; the standard CRC-32 of
    [b"123456789"] is 0xCBF43926 and that of the empty payload is 0. *)
Theorem crc_field_is_standard_crc32 :
  (forall (payload : bytes) (application_name : str) (ctime current_epoch : Z)
          (header : bytes),
      is_ascii application_name = true ->
      eeprom_metadata_of payload application_name ctime current_epoch = Ok header ->
      slice header 28 32 = be_digits (crc32_reference payload) 4 /\
      from_bytes (slice header 28 32) = crc32_reference payload) /\
  crc32_reference (blit "123456789") = 0xCBF43926 /\
  crc32_reference [] = 0.
Proof.
  split; [|split; reflexivity].
  intros payload application_name ctime current_epoch header Hascii H.
  apply eeprom_metadata_of_inv in H as (name & Hname & _ & _ & _ & ->).
  rewrite (utf8_encode_ascii _ (is_ascii_app_name_of _ Hascii)) in Hname.
  injection Hname as <-.
  assert (Hlen : length (ascii_bytes (app_name_of application_name)) = 10%nat)
    by (rewrite length_ascii_bytes; apply length_app_name_of).
  destruct (laid_out_fields _ payload ctime current_epoch Hlen)
    as (_ & _ & _ & _ & Hk & _).
  rewrite Hk, <- crc32_is_reference. split; [reflexivity|].
  apply from_bytes_be_digits. apply crc32_range.
Qed.

(** ** Where the script departs from its own comments *)

Lemma oversized_payload_raises
    (payload : bytes) (application_name : str) (ctime current_epoch : Z) :
  65536 <= Z.of_nat (length payload) ->
  eeprom_metadata_of payload application_name ctime current_epoch
  = Raise (OverflowError "int too big to convert").
Proof.
  intro H. unfold eeprom_metadata_of.
  now rewrite to_bytes_too_big by (change (256 ^ Z.of_nat 2) with 65536; lia).
Qed.

(** C1.  A payload of 65536 bytes: the conversion of its length to two bytes
    (line 59) raises [OverflowError], so no header and no length field are
    produced, where the comment on line 58 announces a truncation to
    [uint16_t].  The run on a file of that size stops there, after the read. *)
Theorem payload_of_65536_bytes_raises :
  eeprom_metadata_of (repeat x00 (Z.to_nat 65536)) DEFAULT_APP_NAME 0 0
  = Raise (OverflowError "int too big to convert") /\
  fst (main demo_env (demo_args (lit "big.bin") DEFAULT_APP_NAME false) big_world)
  = Raise (OverflowError "int too big to convert") /\
  trace (snd (main demo_env (demo_args (lit "big.bin") DEFAULT_APP_NAME false) big_world))
  = [EStat (lit "big.bin"); EOpenRead (lit "big.bin")].
Proof.
  split; [|split].
  - apply oversized_payload_raises. rewrite repeat_length. lia.
  - vm_compute. reflexivity.
  - vm_compute. reflexivity.
Qed.

(** C2.  The application name of the single character U+00E9 (e with acute
    accent) with a payload of 10 bytes: the header is 35 bytes long and the
    image 45, not 34 and 44, and a reader that splits the image after 34
    bytes finds neither the creation time nor the payload.  The run on the
    10-byte file writes these 45 bytes. *)
Theorem non_ascii_name_header_is_35_bytes :
  exists header image,
    eeprom_metadata_of (repeat x00 10) [233%N] 1700000000 1700000100 = Ok header /\
    eeprom_payload_of (repeat x00 10) [233%N] 1700000000 1700000100 = Ok image /\
    length header = 35%nat /\
    length image = 45%nat /\
    f_ctime (decode_header (fst (split_image image))) <> 1700000000 /\
    snd (split_image image) <> repeat x00 10 /\
    fst (main demo_env (demo_args (lit "fw.bin") [233%N] false) demo_world)
    = Ok RNone /\
    trace (snd (main demo_env (demo_args (lit "fw.bin") [233%N] false) demo_world))
    = [EStat (lit "fw.bin"); EOpenRead (lit "fw.bin");
       EOpenWrite (lit "out.eeprom"); EFileWrite (lit "out.eeprom") image].
Proof.
  eexists. eexists.
  repeat apply conj; try (vm_compute; reflexivity); vm_compute; discriminate.
Qed.

(** C3.  The name is cut to 10 characters before it is encoded (line 68), so
    the name field is longer than 10 bytes as soon as a character takes more
    than one byte: 11 bytes for the single character U+00E9, and for eleven
    of them the 20 bytes of ten whole characters, not the first 10 bytes of
    the name. *)
Theorem non_ascii_name_field_exceeds_10_bytes :
  utf8_encode (app_name_of [233%N]) = Ok ([xc3; xa9] ++ repeat x20 9) /\
  eeprom_metadata_of [] [233%N] 0 0
  = Ok (laid_out ([xc3; xa9] ++ repeat x20 9) [] 0 0) /\
  utf8_encode (app_name_of (repeat 233%N 11))
  = Ok (concat (repeat [xc3; xa9] 10)) /\
  eeprom_metadata_of [] (repeat 233%N 11) 0 0
  = Ok (laid_out (concat (repeat [xc3; xa9] 10)) [] 0 0).
Proof.
  repeat apply conj; vm_compute; reflexivity.
Qed.

(** C4.  The application name of the single character U+00E9 with the
    payload [b"123456789"]: a header is produced, but its name field takes
    11 bytes, so the four bytes at offsets 28..31 are the last byte of the
    write time followed by the first three of the checksum, [64 cb f4 39];
    they do not decode to the standard CRC-32 of the payload, 0xCBF43926,
    which sits one byte further, at offsets 29..32.  A payload of 65536
    bytes gets no header, and so no checksum field at all. *)
Theorem crc_field_displaced_by_non_ascii_name :
  crc32_reference (blit "123456789") = 0xCBF43926 /\
  (exists header,
      eeprom_metadata_of (blit "123456789") [233%N] 1700000000 1700000100
      = Ok header /\
      slice header 28 32 = [x64; xcb; xf4; x39] /\
      from_bytes (slice header 28 32) <> crc32_reference (blit "123456789") /\
      from_bytes (slice header 29 33) = crc32_reference (blit "123456789")) /\
  eeprom_metadata_of (repeat x00 (Z.to_nat 65536)) DEFAULT_APP_NAME 0 0
  = Raise (OverflowError "int too big to convert").
Proof.
  split; [vm_compute; reflexivity|]. split.
  - eexists. split; [vm_compute; reflexivity|].
    split; [vm_compute; reflexivity|].
    split; [vm_compute; discriminate | vm_compute; reflexivity].
  - apply oversized_payload_raises. rewrite repeat_length. lia.
Qed.

(** ** The order of the file operations *)


Lemma eeprom_payload_of_inv
    (payload : bytes) (application_name : str) (ctime current_epoch : Z)
    (image : bytes) :
  eeprom_payload_of payload application_name ctime current_epoch = Ok image ->
  exists header,
    eeprom_metadata_of payload application_name ctime current_epoch = Ok header /\
    image = header ++ payload.
Proof.
  unfold eeprom_payload_of, rbind.
  destruct (eeprom_metadata_of payload application_name ctime current_epoch)
    as [header|e]; [|discriminate].
  intro H. injection H as <-. now exists header.
Qed.

Lemma generate_run
    (env : environment) (c : N) (path : str) (application_name output_file : str)
    (print_header_result : bool) (w w' : world) (r : result retval) :
  generate_miniboot_header env (Some (c :: path)) application_name output_file
    print_header_result w = (r, w') ->
  (exists e evs,
      r = Raise e /\ trace w' = trace w ++ evs /\ existsb is_output evs = false) \/
  (exists payload ctime header stored prints,
      eeprom_metadata_of payload application_name ctime (now env) = Ok header /\
      trace w' = trace w ++
                 [EStat (c :: path); EOpenRead (c :: path); EOpenWrite output_file;
                  EFileWrite output_file stored] ++ prints /\
      existsb is_output prints = false /\
      ((r = Ok RNone /\ stored = header ++ payload) \/
       (exists k,
           r = Raise (OSError "No space left on device") /\
           stored = firstn k (header ++ payload) /\ prints = []))).
Proof.
  destruct w as [f t].
  cbv beta iota delta
    [generate_miniboot_header bind stat open_read emit lift open_write file_write
     print ret fs trace].
  destruct (f (c :: path)) as [i|] eqn:Efs; cbv beta iota delta [fs trace].
  2:{ intro H. injection H as <- <-. left.
      exists (FileNotFoundError (c :: path)), [EStat (c :: path)]. auto. }
  rewrite Efs.
  destruct (readable i) eqn:Eread; cbv beta iota zeta delta [fs trace].
  2:{ intro H. injection H as <- <-. left.
      exists (PermissionError (c :: path)), [EStat (c :: path)]. auto. }
  destruct (eeprom_payload_of (content i) application_name (st_ctime i) (now env))
    as [image|e] eqn:Eimage; cbv beta iota zeta delta [fs trace].
  2:{ intro H. injection H as <- <-. left.
      exists e, [EStat (c :: path); EOpenRead (c :: path)].
      cbn [trace]. rewrite <- app_assoc. auto. }
  apply eeprom_payload_of_inv in Eimage as (header & Emeta & ->).
  destruct (creatable env output_file) eqn:Ecreate;
    cbv beta iota zeta delta [fs trace].
  2:{ intro H. injection H as <- <-. left.
      exists (create_error env output_file), [EStat (c :: path); EOpenRead (c :: path)].
      cbn [trace]. rewrite <- app_assoc. auto. }
  destruct (write_fault env output_file (header ++ content i)) as [k|] eqn:Efault;
    cbv beta iota zeta delta [fs trace].
  { intro H. injection H as <- <-. right.
    exists (content i), (st_ctime i), header, (firstn k (header ++ content i)), [].
    split; [exact Emeta|]. cbn [trace]. rewrite <- !app_assoc. cbn [app].
    split; [reflexivity|]. split; [reflexivity|]. right. now exists k. }
  destruct print_header_result; cbv beta iota zeta delta [fs trace];
    intro H; injection H as <- <-; right;
    exists (content i), (st_ctime i), header, (header ++ content i); eexists;
    (split; [exact Emeta|]);
    cbn [trace]; rewrite <- !app_assoc; cbn [app];
    (split; [reflexivity|]); (split; [reflexivity|]); left; split; reflexivity.
Qed.

Lemma check_if_binary_run
    (env : environment) (binary_file : str) (dont_auto_convert : bool)
    (check : str) (w w' : world) (r : result (bool * str)) :
  check_if_binary env binary_file dont_auto_convert check w = (r, w') ->
  (exists evs, trace w' = trace w ++ evs /\ existsb is_output evs = false) /\
  (forall new_filepath, r = Ok (true, new_filepath) -> new_filepath <> []).
Proof.
  destruct check as [|c check].
  { intro H. vm_compute in H. injection H as <- <-.
    split; [exists []; now rewrite app_nil_r | discriminate]. }
  unfold check_if_binary.
  destruct (splitext (c :: check)) as [file_name file_ext].
  destruct (str_eqb file_ext (lit ".bin")).
  { intro H. injection H as <- <-.
    split; [exists []; now rewrite app_nil_r|].
    intros p Hp. injection Hp as <-. discriminate. }
  destruct (str_eqb file_ext (lit ".hex")).
  2:{ intro H. injection H as <- <-.
      split; [exists []; now rewrite app_nil_r | discriminate]. }
  destruct dont_auto_convert; cbn [negb].
  { intro H. injection H as <- <-.
    split; [exists []; now rewrite app_nil_r | discriminate]. }
  destruct w as [f t].
  cbv beta iota delta [bind subrun emit ret fs trace].
  destruct (run_command env f _) as [f'|e]; intro H; injection H as <- <-.
  - split; [eexists; split; [reflexivity | reflexivity]|].
    intros p Hp. injection Hp as <-. destruct file_name; discriminate.
  - split; [eexists; split; [reflexivity | reflexivity] | discriminate].
Qed.


(** ** The ten bytes at offsets 10..19

    Whatever the name, when it can be encoded and a header is produced, the
    ten bytes at offsets 10..19 are the first ten bytes of the encoded name
    followed by spaces.  With a name that has multi-byte characters the
    name field goes on past offset 19 (see above). *)

Lemma utf8_char_nonempty (c : N) (b : bytes) :
  utf8_char c = Ok b -> (1 <= length b)%nat.
Proof.
  unfold utf8_char.
  destruct (Z.of_N c <? 128); [intro H; injection H as <-; simpl; lia|].
  destruct (Z.of_N c <? 2048); [intro H; injection H as <-; simpl; lia|].
  destruct (Z.of_N c <? 65536).
  - destruct ((55296 <=? Z.of_N c) && (Z.of_N c <=? 57343)); [discriminate|].
    intro H. injection H as <-. simpl. lia.
  - destruct (Z.of_N c <? 1114112); [|discriminate].
    intro H. injection H as <-. simpl. lia.
Qed.

Lemma utf8_encode_length (s : str) :
  forall b, utf8_encode s = Ok b -> (length s <= length b)%nat.
Proof.
  induction s as [|c s IH]; intros b H; simpl in *.
  - lia.
  - destruct (utf8_char c) as [b1|] eqn:Ec; [|discriminate].
    destruct (utf8_encode s) as [b2|]; [|discriminate].
    injection H as <-. apply utf8_char_nonempty in Ec.
    specialize (IH b2 eq_refl). rewrite length_app. lia.
Qed.

Lemma utf8_encode_app (s t : str) :
  utf8_encode (s ++ t)
  = match utf8_encode s with
    | Ok b1 =>
        match utf8_encode t with
        | Ok b2 => Ok (b1 ++ b2)
        | Raise e => Raise e
        end
    | Raise e => Raise e
    end.
Proof.
  induction s as [|c s IH]; simpl.
  - now destruct (utf8_encode t).
  - destruct (utf8_char c) as [b|]; [|reflexivity].
    rewrite IH. destruct (utf8_encode s) as [b1|]; [|reflexivity].
    destruct (utf8_encode t) as [b2|]; [|reflexivity].
    now rewrite app_assoc.
Qed.

Lemma utf8_encode_spaces (k : nat) :
  utf8_encode (repeat 32%N k) = Ok (repeat x20 k).
Proof.
  induction k as [|k IH]; simpl.
  - reflexivity.
  - now rewrite IH.
Qed.

Lemma utf8_encode_firstn (n : nat) (s : str) (b : bytes) :
  utf8_encode s = Ok b ->
  exists b1 b2, utf8_encode (firstn n s) = Ok b1 /\ b = b1 ++ b2.
Proof.
  intro H. rewrite <- (firstn_skipn n s), utf8_encode_app in H.
  destruct (utf8_encode (firstn n s)) as [b1|]; [|discriminate].
  destruct (utf8_encode (skipn n s)) as [b2|]; [|discriminate].
  injection H as <-. now exists b1, b2.
Qed.

Lemma firstn_repeat {A : Type} (x : A) (m k : nat) :
  firstn m (repeat x k) = repeat x (min m k).
Proof.
  revert k. induction m as [|m IH]; intros [|k]; simpl; try reflexivity.
  now rewrite IH.
Qed.

(** X6.  In every header produced for a name that can be encoded as a whole,
    the ten bytes at offsets 10..19 are the first ten bytes of the UTF-8
    encoding of the name followed by spaces. *)
Lemma name_window
    (payload : bytes) (application_name : str) (ctime current_epoch : Z)
    (header encoded : bytes) :
  eeprom_metadata_of payload application_name ctime current_epoch = Ok header ->
  utf8_encode application_name = Ok encoded ->
  slice header 10 20 = firstn 10 (encoded ++ repeat x20 (10 - length encoded)).
Proof.
  intros H Henc.
  apply eeprom_metadata_of_inv in H as (name & Hname & _ & _ & _ & ->).
  pose proof (utf8_encode_length _ _ Hname) as Hlen.
  rewrite length_app_name_of in Hlen.
  pose proof (utf8_encode_length _ _ Henc) as Hlen'.
  unfold laid_out, slice.
  rewrite (skipn_exact 10 (blit "ABminiboot")) by reflexivity.
  change (20 - 10)%nat with 10%nat.
  rewrite firstn_app. replace (10 - length name)%nat with 0%nat by lia.
  rewrite firstn_0, app_nil_r.
  unfold app_name_of, ljust in Hname.
  assert (Hpad : utf8_encode
                   (application_name ++ repeat 32%N (10 - length application_name))
                 = Ok (encoded ++ repeat x20 (10 - length application_name)))
    by (now rewrite utf8_encode_app, Henc, utf8_encode_spaces).
  destruct (utf8_encode_firstn 10 _ _ Hpad) as (b1 & b2 & Hb1 & Hsplit).
  rewrite Hname in Hb1. injection Hb1 as <-.
  transitivity (firstn 10 (encoded ++ repeat x20 (10 - length application_name))).
  - rewrite Hsplit, firstn_app.
    replace (10 - length name)%nat with 0%nat by lia.
    now rewrite firstn_0, app_nil_r.
  - rewrite !firstn_app, !firstn_repeat. do 2 f_equal. lia.
Qed.

(** ** The scenarios of the specification *)

(** The 10-byte file of zeros, application name ["Demo"]: the output file
    holds 44 bytes, the preamble, the padded name, the checksum of the ten
    zero bytes and the length [0x000A]. *)
Lemma scenario_demo :
  let run := main demo_env (demo_args (lit "fw.bin") (lit "Demo") false) demo_world in
  fst run = Ok RNone /\
  exists image,
    option_map content (fs (snd run) (lit "out.eeprom")) = Some image /\
    length image = 44%nat /\
    slice image 0 10 = blit "ABminiboot" /\
    slice image 10 20 = blit "Demo      " /\
    from_bytes (slice image 28 32) = crc32_reference (repeat x00 10) /\
    slice image 32 34 = [x00; x0a].
Proof.
  split; [vm_compute; reflexivity|].
  eexists. repeat apply conj; vm_compute; reflexivity.
Qed.

(** An application name of 11 characters is cut to its first 10. *)
Lemma scenario_long_name :
  exists header,
    eeprom_metadata_of (repeat x00 10) (lit "1234567890A") 1700000000 1700000100
    = Ok header /\
    slice header 10 20 = blit "1234567890".
Proof.
  eexists. split; vm_compute; reflexivity.
Qed.

(** ** The statements at concrete inputs *)

Lemma crc_field_is_standard_crc32_witness :
  is_ascii DEFAULT_APP_NAME = true /\
  eeprom_metadata_of (blit "123456789") DEFAULT_APP_NAME 0 0
  = Ok (laid_out (blit "APPNAME   ") (blit "123456789") 0 0) /\
  slice (laid_out (blit "APPNAME   ") (blit "123456789") 0 0) 28 32
  = be_digits (crc32_reference (blit "123456789")) 4 /\
  from_bytes (slice (laid_out (blit "APPNAME   ") (blit "123456789") 0 0) 28 32)
  = crc32_reference (blit "123456789").
Proof.
  split; [reflexivity|]. split; [vm_compute; reflexivity|].
  apply (proj1 crc_field_is_standard_crc32 (blit "123456789") DEFAULT_APP_NAME 0 0);
    [reflexivity | vm_compute; reflexivity].
Defined.

Lemma hex_input_without_conversion_fails_witness :
  snd (splitext (lit "fw.hex")) = lit ".hex" /\
  main demo_env (demo_args (lit "fw.hex") (lit "Demo") true) demo_world
  = (Raise (ValueError "Given file was .hex, but not allowed to convert"), demo_world).
Proof.
  split; [reflexivity|].
  apply hex_input_without_conversion_fails; reflexivity.
Defined.

Lemma unrecognized_extension_fails_witness :
  snd (splitext (lit "fw.elf")) = lit ".elf" /\
  main demo_env (demo_args (lit "fw.elf") (lit "Demo") false) demo_world
  = (Raise (TypeError "Given file was not a .bin or a .hex"), demo_world).
Proof.
  split; [reflexivity|].
  apply unrecognized_extension_fails; vm_compute; discriminate.
Defined.

Lemma falsy_path_returns_empty_string_witness :
  truthy None = false /\
  truthy (Some []) = false /\
  generate_miniboot_header demo_env None DEFAULT_APP_NAME DEFAULT_OUTPUT_FILE true
    demo_world = (Ok (RStr []), demo_world) /\
  generate_miniboot_header demo_env (Some []) DEFAULT_APP_NAME DEFAULT_OUTPUT_FILE true
    demo_world = (Ok (RStr []), demo_world).
Proof.
  split; [reflexivity|]. split; [reflexivity|].
  split; apply falsy_path_returns_empty_string; reflexivity.
Defined.

Lemma extension_match_is_case_sensitive_witness :
  (check_if_binary demo_env (lit "fw.bin") false (lit "fw.bin") demo_world
   = (Ok (true, lit "fw.bin"), demo_world) /\
   (snd (splitext (lit "fw.bin")) = lit ".bin" \/
    snd (splitext (lit "fw.bin")) = lit ".hex")) /\
  (snd (splitext (lit "fw.BIN")) <> lower (snd (splitext (lit "fw.BIN"))) /\
   check_if_binary demo_env (lit "fw.BIN") false (lit "fw.BIN") demo_world
   = (Ok (false, lit "fw.BIN"), demo_world)) /\
  (snd (splitext (lit "fw.Hex")) <> lower (snd (splitext (lit "fw.Hex"))) /\
   check_if_binary demo_env (lit "fw.Hex") true (lit "fw.Hex") demo_world
   = (Ok (false, lit "fw.Hex"), demo_world)).
Proof.
  split; [|split].
  - split; [reflexivity|].
    apply (proj1 (extension_match_is_case_sensitive demo_env (lit "fw.bin") false
                    (lit "fw.bin") demo_world) (lit "fw.bin") demo_world).
    reflexivity.
  - split; [vm_compute; discriminate|].
    apply (proj2 (extension_match_is_case_sensitive demo_env (lit "fw.BIN") false
                    (lit "fw.BIN") demo_world)).
    vm_compute; discriminate.
  - split; [vm_compute; discriminate|].
    apply (proj2 (extension_match_is_case_sensitive demo_env (lit "fw.Hex") true
                    (lit "fw.Hex") demo_world)).
    vm_compute; discriminate.
Defined.

Lemma image_roundtrip_witness :
  Z.of_nat (length (blit "123456789")) <= 65535 /\
  is_ascii (lit "Demo") = true /\
  exists image,
    eeprom_payload_of (blit "123456789") (lit "Demo") 1700000000 1700000100 = Ok image /\
    snd (split_image image) = blit "123456789" /\
    decode_header (fst (split_image image))
    = {| f_preamble := lit "ABminiboot";
         f_name := firstn 10 (lit "Demo" ++ repeat 32%N (10 - length (lit "Demo")));
         f_ctime := 1700000000;
         f_epoch := 1700000100;
         f_crc := crc32_reference (blit "123456789");
         f_length := Z.of_nat (length (blit "123456789")) |}.
Proof.
  split; [vm_compute; discriminate|]. split; [reflexivity|].
  apply image_roundtrip; [vm_compute; discriminate | reflexivity | lia | lia].
Defined.


(** * Further properties of the script *)

(** ** When a header is produced, and what can go wrong *)

Lemma utf8_char_ok_iff (c : N) :
  (exists b, utf8_char c = Ok b) <-> encodable c = true.
Proof.
  unfold utf8_char, encodable.
  destruct (Z.of_N c <? 128) eqn:E1.
  { apply Z.ltb_lt in E1. split; [intros _|eauto].
    apply orb_true_intro. left. apply N.ltb_lt. lia. }
  destruct (Z.of_N c <? 2048) eqn:E2.
  { apply Z.ltb_lt in E2. split; [intros _|eauto].
    apply orb_true_intro. left. apply N.ltb_lt. lia. }
  apply Z.ltb_ge in E1, E2.
  destruct (Z.of_N c <? 65536) eqn:E3.
  - apply Z.ltb_lt in E3.
    destruct ((55296 <=? Z.of_N c) && (Z.of_N c <=? 57343)) eqn:E4.
    + apply andb_prop in E4 as [Ea Eb]. apply Z.leb_le in Ea, Eb.
      split; [intros [b Hb]; discriminate Hb|].
      intro H. apply orb_prop in H as [H|H].
      * apply N.ltb_lt in H. lia.
      * apply andb_prop in H as [H _]. apply N.ltb_lt in H. lia.
    + split; [intros _|eauto].
      apply andb_false_iff in E4 as [E4|E4].
      * apply Z.leb_gt in E4. apply orb_true_intro. left. apply N.ltb_lt. lia.
      * apply Z.leb_gt in E4. apply orb_true_intro. right.
        apply andb_true_intro. split; apply N.ltb_lt; lia.
  - apply Z.ltb_ge in E3.
    destruct (Z.of_N c <? 1114112) eqn:E5.
    + apply Z.ltb_lt in E5. split; [intros _|eauto].
      apply orb_true_intro. right. apply andb_true_intro. split; apply N.ltb_lt; lia.
    + apply Z.ltb_ge in E5. split; [intros [b Hb]; discriminate Hb|].
      intro H. apply orb_prop in H as [H|H].
      * apply N.ltb_lt in H. lia.
      * apply andb_prop in H as [_ H]. apply N.ltb_lt in H. lia.
Qed.

Lemma utf8_encode_ok_iff (s : str) :
  (exists b, utf8_encode s = Ok b) <-> forallb encodable s = true.
Proof.
  induction s as [|c s IH]; simpl.
  - split; eauto.
  - rewrite andb_true_iff, <- IH, <- utf8_char_ok_iff.
    split.
    + intros [b Hb].
      destruct (utf8_char c) as [b1|]; [|discriminate Hb].
      destruct (utf8_encode s) as [b2|]; [|discriminate Hb]. eauto.
    + intros [[b1 ->] [b2 ->]]. eauto.
Qed.

Lemma utf8_char_raises (c : N) (e : exn) :
  utf8_char c = Raise e -> e = UnicodeEncodeError.
Proof.
  unfold utf8_char.
  repeat match goal with
         | |- context [if ?b then _ else _] => destruct b
         end; intro H; try discriminate H; now injection H as <-.
Qed.

Lemma utf8_encode_raises (s : str) (e : exn) :
  utf8_encode s = Raise e -> e = UnicodeEncodeError.
Proof.
  induction s as [|c s IH]; simpl; [discriminate|].
  destruct (utf8_char c) as [b|e1] eqn:Ec.
  - destruct (utf8_encode s) as [tl|e2]; [discriminate|].
    intro H. injection H as <-. now apply IH.
  - intro H. injection H as <-. now apply utf8_char_raises in Ec.
Qed.

Lemma to_bytes_raises (n : Z) (k : nat) (e : exn) :
  to_bytes n k = Raise e ->
  (n < 0 /\ e = OverflowError "can't convert negative int to unsigned") \/
  (256 ^ Z.of_nat k <= n /\ e = OverflowError "int too big to convert").
Proof.
  unfold to_bytes.
  destruct (n <? 0) eqn:E1.
  - apply Z.ltb_lt in E1. intro H. injection H as <-. now left.
  - destruct (256 ^ Z.of_nat k <=? n) eqn:E2; [|discriminate].
    apply Z.leb_le in E2. intro H. injection H as <-. now right.
Qed.

Lemma forallb_app_name_of (f : N -> bool) (a : str) :
  f 32%N = true -> forallb f (app_name_of a) = forallb f (firstn 10 a).
Proof.
  intro Hf. unfold app_name_of, ljust.
  rewrite firstn_app, forallb_app.
  replace (forallb f (firstn (10 - length a) (repeat 32%N (10 - length a)))) with true.
  - apply andb_true_r.
  - symmetry. apply forallb_forall. intros x Hx.
    apply in_firstn, repeat_spec in Hx. now subst x.
Qed.

(** X1.  A header is produced exactly when the payload has at most 65535 bytes,
    none of the first ten characters of the name is a surrogate, and both
    timestamps fit 32 bits; it is then the six fields, one after the
    other. *)
Theorem header_produced_iff
    (payload : bytes) (application_name : str) (ctime current_epoch : Z) :
  (exists header,
      eeprom_metadata_of payload application_name ctime current_epoch = Ok header)
  <->
  (Z.of_nat (length payload) <= 65535 /\
   forallb encodable (firstn 10 application_name) = true /\
   0 <= ctime < 2 ^ 32 /\
   0 <= current_epoch < 2 ^ 32).
Proof.
  split.
  - intros [header H].
    apply eeprom_metadata_of_inv in H as (name & Hname & Hsize & Hc & He & _).
    repeat apply conj; try lia.
    rewrite <- (forallb_app_name_of encodable) by reflexivity.
    apply utf8_encode_ok_iff. eauto.
  - intros (Hsize & Hname & Hc & He).
    rewrite <- (forallb_app_name_of encodable) in Hname by reflexivity.
    apply utf8_encode_ok_iff in Hname as [name Hname].
    exists (laid_out name payload ctime current_epoch).
    apply eeprom_metadata_of_intro; auto. lia.
Qed.

Lemma header_produced_iff_witness :
  (Z.of_nat (length (blit "123456789")) <= 65535 /\
   forallb encodable (firstn 10 [233%N]) = true /\
   0 <= 1700000000 < 2 ^ 32 /\
   0 <= 1700000100 < 2 ^ 32) /\
  exists header,
    eeprom_metadata_of (blit "123456789") [233%N] 1700000000 1700000100 = Ok header.
Proof.
  assert (H : Z.of_nat (length (blit "123456789")) <= 65535 /\
              forallb encodable (firstn 10 [233%N]) = true /\
              0 <= 1700000000 < 2 ^ 32 /\
              0 <= 1700000100 < 2 ^ 32)
    by (repeat apply conj; (reflexivity || (vm_compute; discriminate))).
  split; [exact H|].
  exact (proj2 (header_produced_iff (blit "123456789") [233%N] 1700000000 1700000100) H).
Defined.

(** X2.  The only exceptions the construction of the header raises are the two
    [OverflowError] of the integer conversions and [UnicodeEncodeError]: the
    checksum always fits its four bytes and [unhexlify] never fails. *)
Theorem header_errors
    (payload : bytes) (application_name : str) (ctime current_epoch : Z) (e : exn) :
  eeprom_metadata_of payload application_name ctime current_epoch = Raise e ->
  e = OverflowError "int too big to convert" \/
  e = OverflowError "can't convert negative int to unsigned" \/
  e = UnicodeEncodeError.
Proof.
  unfold eeprom_metadata_of. intro H.
  destruct (to_bytes (Z.of_nat (length payload)) 2) as [sz|e1] eqn:Esz; cbn [rbind] in H.
  2:{ injection H as <-. apply to_bytes_raises in Esz as [[_ ->]|[_ ->]]; auto. }
  rewrite (proj2 (to_bytes_ok (crc32 payload) 4 _)) in H
    by (split; [apply crc32_range | reflexivity]).
  cbn [rbind] in H. rewrite utf8_encode_preamble in H. cbn [rbind] in H.
  destruct (utf8_encode (app_name_of application_name)) as [name|e2] eqn:Ename;
    cbn [rbind] in H.
  2:{ injection H as <-. apply utf8_encode_raises in Ename. auto. }
  destruct (to_bytes ctime 4) as [ct|e3] eqn:Ect; cbn [rbind] in H.
  2:{ injection H as <-. apply to_bytes_raises in Ect as [[_ ->]|[_ ->]]; auto. }
  destruct (to_bytes current_epoch 4) as [ep|e4] eqn:Eep; cbn [rbind] in H.
  2:{ injection H as <-. apply to_bytes_raises in Eep as [[_ ->]|[_ ->]]; auto. }
  rewrite unhexlify_fields in H. discriminate H.
Qed.

Lemma header_errors_witness :
  eeprom_metadata_of [] [55296%N] 0 0 = Raise UnicodeEncodeError /\
  (UnicodeEncodeError = OverflowError "int too big to convert" \/
   UnicodeEncodeError = OverflowError "can't convert negative int to unsigned" \/
   UnicodeEncodeError = UnicodeEncodeError).
Proof.
  split; [reflexivity|].
  apply (header_errors [] [55296%N] 0 0). reflexivity.
Defined.

(** ** The length of the header and its two fixed ends *)

Lemma utf8_char_length (c : N) (b : bytes) :
  utf8_char c = Ok b ->
  (1 <= length b <= 4)%nat /\ (length b = 1%nat <-> (c <? 128)%N = true).
Proof.
  unfold utf8_char.
  destruct (Z.of_N c <? 128) eqn:E1.
  { apply Z.ltb_lt in E1. intro H. injection H as <-. simpl.
    split; [lia|]. split; [intros _; apply N.ltb_lt; lia | reflexivity]. }
  apply Z.ltb_ge in E1.
  assert (Hn : (c <? 128)%N = false) by (apply N.ltb_ge; lia).
  rewrite Hn.
  repeat match goal with
         | |- context [if ?b then _ else _] => destruct b
         end; intro H; try discriminate H; injection H as <-; simpl;
    (split; [lia | split; [lia | discriminate]]).
Qed.

Lemma utf8_encode_length_ascii (s : str) :
  forall b, utf8_encode s = Ok b ->
  (length b <= 4 * length s)%nat /\ (length b = length s <-> is_ascii s = true).
Proof.
  induction s as [|c s IH]; intros b H; simpl in H.
  - injection H as <-. simpl. split; [lia | tauto].
  - destruct (utf8_char c) as [b1|] eqn:Ec; [|discriminate H].
    destruct (utf8_encode s) as [b2|] eqn:Es; [|discriminate H].
    injection H as <-.
    destruct (utf8_char_length _ _ Ec) as [Hb1 Hone].
    destruct (IH b2 eq_refl) as [Hb2 Hall].
    pose proof (utf8_encode_length _ _ Es) as Hge.
    rewrite length_app. cbn [length is_ascii forallb].
    split; [lia|]. rewrite andb_true_iff, <- Hone.
    change (forallb (fun c => (c <? 128)%N) s) with (is_ascii s).
    rewrite <- Hall. lia.
Qed.

(** X3.  Every header has between 34 and 64 bytes, and exactly 34 when, and only
    when, the first ten characters of the application name are ASCII. *)
Theorem header_length_bounds
    (payload : bytes) (application_name : str) (ctime current_epoch : Z)
    (header : bytes) :
  eeprom_metadata_of payload application_name ctime current_epoch = Ok header ->
  (34 <= length header <= 64)%nat /\
  (length header = 34%nat <-> is_ascii (firstn 10 application_name) = true).
Proof.
  intro H.
  apply eeprom_metadata_of_inv in H as (name & Hname & _ & _ & _ & ->).
  rewrite length_laid_out.
  destruct (utf8_encode_length_ascii _ _ Hname) as [Hle Hiff].
  pose proof (utf8_encode_length _ _ Hname) as Hge.
  rewrite length_app_name_of in Hle, Hge, Hiff.
  unfold is_ascii in *.
  rewrite forallb_app_name_of in Hiff by reflexivity.
  split; [lia|]. rewrite <- Hiff. lia.
Qed.

Lemma header_length_bounds_witness :
  eeprom_metadata_of [] (repeat 128512%N 11) 0 0
  = Ok (laid_out (concat (repeat [xf0; x9f; x98; x80] 10)) [] 0 0) /\
  (34 <= length (laid_out (concat (repeat [xf0; x9f; x98; x80] 10)) [] 0 0) <= 64)%nat /\
  (length (laid_out (concat (repeat [xf0; x9f; x98; x80] 10)) [] 0 0) = 34%nat <->
   is_ascii (firstn 10 (repeat 128512%N 11)) = true).
Proof.
  split; [vm_compute; reflexivity|].
  apply (header_length_bounds [] (repeat 128512%N 11) 0 0).
  vm_compute; reflexivity.
Defined.

(** X4.  Whatever the name, a header starts with the preamble and ends with the
    fourteen bytes of the creation time, the write time, the checksum and
    the length, in this order: counted from the end of the header, these
    four fields are always where a reader expects them. *)
Theorem header_ends
    (payload : bytes) (application_name : str) (ctime current_epoch : Z)
    (header : bytes) :
  eeprom_metadata_of payload application_name ctime current_epoch = Ok header ->
  firstn 10 header = blit "ABminiboot" /\
  let tail := skipn (length header - 14) header in
  length tail = 14%nat /\
  from_bytes (slice tail 0 4) = ctime /\
  from_bytes (slice tail 4 8) = current_epoch /\
  from_bytes (slice tail 8 12) = crc32 payload /\
  from_bytes (slice tail 12 14) = Z.of_nat (length payload).
Proof.
  intro H.
  apply eeprom_metadata_of_inv in H as (name & _ & Hsize & Hc & He & ->).
  split; [unfold laid_out; now apply firstn_exact|].
  rewrite length_laid_out.
  replace (24 + length name - 14)%nat with (length (blit "ABminiboot" ++ name))
    by (rewrite length_app; simpl; lia).
  unfold laid_out. rewrite app_assoc, skipn_exact by reflexivity.
  set (c := be_digits ctime 4). set (e := be_digits current_epoch 4).
  set (k := be_digits (crc32 payload) 4).
  set (z := be_digits (Z.of_nat (length payload)) 2).
  assert (Hlc : length c = 4%nat) by apply length_be_digits.
  assert (Hle : length e = 4%nat) by apply length_be_digits.
  assert (Hlk : length k = 4%nat) by apply length_be_digits.
  assert (Hlz : length z = 2%nat) by apply length_be_digits.
  cbv zeta. split; [rewrite !length_app; lia|].
  rewrite (slice_of 0 4 _ [] c (e ++ k ++ z)) by auto.
  rewrite (slice_of 4 8 _ c e (k ++ z)) by auto.
  rewrite (slice_of 8 12 _ (c ++ e) k z)
    by (rewrite <- ?app_assoc, ?length_app; auto; lia).
  rewrite (slice_of 12 14 _ (c ++ e ++ k) z [])
    by (rewrite <- ?app_assoc, ?length_app, ?app_nil_r; auto; lia).
  unfold c, e, k, z.
  rewrite !from_bytes_be_digits;
    [ auto | change (256 ^ Z.of_nat 2) with 65536; lia
    | apply crc32_range | assumption | assumption ].
Qed.

Lemma header_ends_witness :
  eeprom_metadata_of (blit "123456789") [233%N] 1700000000 1700000100
  = Ok (laid_out ([xc3; xa9] ++ repeat x20 9) (blit "123456789") 1700000000 1700000100) /\
  let header :=
    laid_out ([xc3; xa9] ++ repeat x20 9) (blit "123456789") 1700000000 1700000100 in
  firstn 10 header = blit "ABminiboot" /\
  let tail := skipn (length header - 14) header in
  length tail = 14%nat /\
  from_bytes (slice tail 0 4) = 1700000000 /\
  from_bytes (slice tail 4 8) = 1700000100 /\
  from_bytes (slice tail 8 12) = crc32 (blit "123456789") /\
  from_bytes (slice tail 12 14) = Z.of_nat (length (blit "123456789")).
Proof.
  split; [vm_compute; reflexivity|].
  apply (header_ends (blit "123456789") [233%N] 1700000000 1700000100).
  vm_compute; reflexivity.
Defined.

(** ** The application name *)

(** X5.  The name the header carries always has ten characters: a name of at most
    ten is followed by spaces, a longer one is cut after its tenth
    character, and a name already of this form is left as it is. *)
Theorem app_name_of_normal (application_name : str) :
  length (app_name_of application_name) = 10%nat /\
  ((length application_name <= 10)%nat ->
   app_name_of application_name
   = application_name ++ repeat 32%N (10 - length application_name)) /\
  ((10 <= length application_name)%nat ->
   app_name_of application_name = firstn 10 application_name) /\
  app_name_of (app_name_of application_name) = app_name_of application_name.
Proof.
  split; [apply length_app_name_of|].
  assert (Hlong : forall a : str, (10 <= length a)%nat -> app_name_of a = firstn 10 a).
  { intros a Ha. unfold app_name_of, ljust.
    replace (10 - length a)%nat with 0%nat by lia. simpl. now rewrite app_nil_r. }
  split; [|split].
  - intro Hshort. unfold app_name_of, ljust.
    apply firstn_all2. rewrite length_app, repeat_length. lia.
  - apply Hlong.
  - rewrite (Hlong (app_name_of application_name))
      by (rewrite length_app_name_of; lia).
    apply firstn_all2. rewrite length_app_name_of. lia.
Qed.

Lemma app_name_of_normal_witness :
  (length (lit "Demo") <= 10)%nat /\
  app_name_of (lit "Demo") = lit "Demo" ++ repeat 32%N (10 - length (lit "Demo")) /\
  (10 <= length (lit "1234567890A"))%nat /\
  app_name_of (lit "1234567890A") = firstn 10 (lit "1234567890A").
Proof.
  split; [simpl; lia|].
  split; [apply (proj1 (proj2 (app_name_of_normal (lit "Demo")))); simpl; lia|].
  split; [simpl; lia|].
  apply (proj1 (proj2 (proj2 (app_name_of_normal (lit "1234567890A"))))); simpl; lia.
Defined.

Lemma name_window_witness :
  eeprom_metadata_of [] (lit "123456789" ++ [233%N]) 0 0
  = Ok (laid_out (blit "123456789" ++ [xc3; xa9]) [] 0 0) /\
  utf8_encode (lit "123456789" ++ [233%N]) = Ok (blit "123456789" ++ [xc3; xa9]) /\
  slice (laid_out (blit "123456789" ++ [xc3; xa9]) [] 0 0) 10 20
  = firstn 10 ((blit "123456789" ++ [xc3; xa9])
               ++ repeat x20 (10 - length (blit "123456789" ++ [xc3; xa9]))).
Proof.
  split; [vm_compute; reflexivity|]. split; [vm_compute; reflexivity|].
  apply (name_window [] (lit "123456789" ++ [233%N]) 0 0); vm_compute; reflexivity.
Defined.

(** ** Which paths the dispatch accepts *)

Lemma rfind_from_app (a b : str) (c : N) :
  forall i found,
    rfind_from (a ++ b) c i found
    = rfind_from b c (i + Z.of_nat (length a)) (rfind_from a c i found).
Proof.
  induction a as [|x a IH]; intros i found; simpl.
  - f_equal. lia.
  - rewrite IH. f_equal. lia.
Qed.

Lemma rfind_from_notin (b : str) (c : N) :
  ~ In c b -> forall i found, rfind_from b c i found = found.
Proof.
  induction b as [|x b IH]; intros Hc i found; simpl.
  - reflexivity.
  - destruct (N.eqb_spec x c) as [->|_].
    + exfalso. apply Hc. now left.
    + apply IH. intro H. apply Hc. now right.
Qed.

Lemma rfind_from_last (a b : str) (c : N) (i found : Z) :
  ~ In c b -> rfind_from (a ++ c :: b) c i found = i + Z.of_nat (length a).
Proof.
  intro Hc. rewrite rfind_from_app. simpl. rewrite N.eqb_refl.
  now apply rfind_from_notin.
Qed.

Lemma rfind_from_bound (a : str) (c : N) :
  forall i found, found < i -> rfind_from a c i found < i + Z.of_nat (length a).
Proof.
  induction a as [|x a IH]; intros i found H; simpl.
  - lia.
  - destruct (N.eqb x c).
    + specialize (IH (i + 1) i ltac:(lia)). lia.
    + specialize (IH (i + 1) found ltac:(lia)). lia.
Qed.

Lemma rfind_sep_prefix (prefix rest : str) :
  dir_prefix prefix -> ~ In sep rest ->
  rfind (prefix ++ rest) sep = Z.of_nat (length prefix) - 1.
Proof.
  intros Hp Hrest. unfold rfind. rewrite rfind_from_app.
  rewrite rfind_from_notin by assumption.
  destruct Hp as [->|[d ->]].
  - reflexivity.
  - rewrite rfind_from_last by (intros []). rewrite length_app. simpl. lia.
Qed.

Lemma splitext_loop_spec (body : str) :
  forall a rest,
    splitext_loop (a ++ body ++ rest) (length a) (length body)
    = existsb (fun c => negb (N.eqb c extsep)) body.
Proof.
  induction body as [|x body IH]; intros a rest; simpl.
  - reflexivity.
  - rewrite nth_error_app2, Nat.sub_diag by lia. simpl.
    destruct (N.eqb x extsep); simpl; [|reflexivity].
    replace (a ++ x :: body ++ rest) with ((a ++ [x]) ++ body ++ rest)
      by (now rewrite <- app_assoc).
    replace (S (length a)) with (length (a ++ [x]))
      by (rewrite length_app; simpl; lia).
    apply IH.
Qed.

Lemma splitext_recombine (p : str) : fst (splitext p) ++ snd (splitext p) = p.
Proof.
  unfold splitext.
  destruct (rfind p sep <? rfind p extsep); [|apply app_nil_r].
  destruct (splitext_loop _ _ _); [apply firstn_skipn | apply app_nil_r].
Qed.

(** The extension is that of the last component of the path: with [body]
    the file name up to its last dot, holding a character other than a
    dot, and [ext] free of dots and separators, the path splits before that
    last dot. *)
Lemma splitext_component (prefix body ext : str) :
  dir_prefix prefix ->
  ~ In sep body -> existsb (fun c => negb (N.eqb c extsep)) body = true ->
  ~ In sep ext -> ~ In extsep ext ->
  splitext (prefix ++ body ++ extsep :: ext) = (prefix ++ body, extsep :: ext).
Proof.
  intros Hp Hbody Hname Hsep Hdot.
  unfold splitext.
  rewrite rfind_sep_prefix; [|assumption|].
  2:{ intro H. apply in_app_or in H as [H|[H|H]]; [auto | discriminate H | auto]. }
  assert (Edot : rfind (prefix ++ body ++ extsep :: ext) extsep
                 = Z.of_nat (length prefix) + Z.of_nat (length body)).
  { unfold rfind. rewrite app_assoc, rfind_from_last by assumption.
    rewrite length_app. lia. }
  rewrite Edot.
  assert (Hb : (0 < length body)%nat) by (destruct body; [discriminate Hname | simpl; lia]).
  replace (Z.of_nat (length prefix) - 1 <? Z.of_nat (length prefix) + Z.of_nat (length body))
    with true by (symmetry; apply Z.ltb_lt; lia).
  cbv zeta.
  replace (Z.to_nat (Z.of_nat (length prefix) - 1 + 1)) with (length prefix) by lia.
  replace (Z.to_nat (Z.of_nat (length prefix) + Z.of_nat (length body)
                     - (Z.of_nat (length prefix) - 1 + 1)))
    with (length body) by lia.
  rewrite splitext_loop_spec, Hname.
  replace (Z.to_nat (Z.of_nat (length prefix) + Z.of_nat (length body)))
    with (length (prefix ++ body)) by (rewrite length_app; lia).
  rewrite app_assoc.
  now rewrite firstn_exact, skipn_exact by reflexivity.
Qed.

(** A last component made of dots followed by a name without a dot has no
    extension. *)
Lemma splitext_no_extension (prefix name : str) (k : nat) :
  dir_prefix prefix -> ~ In sep name -> ~ In extsep name ->
  splitext (prefix ++ repeat extsep k ++ name)
  = (prefix ++ repeat extsep k ++ name, []).
Proof.
  intros Hp Hsep Hdot.
  unfold splitext.
  rewrite rfind_sep_prefix; [|assumption|].
  2:{ intro H. apply in_app_or in H as [H|H]; [|auto].
      apply repeat_spec in H. discriminate H. }
  destruct k as [|k].
  - simpl repeat. cbn [app].
    assert (Hlt : rfind (prefix ++ name) extsep < Z.of_nat (length prefix)).
    { unfold rfind. rewrite rfind_from_app, rfind_from_notin by assumption.
      destruct Hp as [->|[d ->]]; [simpl; lia|].
      rewrite rfind_from_app. simpl. change (N.eqb sep extsep) with false. cbv iota.
      pose proof (rfind_from_bound d extsep 0 (-1) ltac:(lia)).
      rewrite length_app. simpl. lia. }
    replace (Z.of_nat (length prefix) - 1 <? rfind (prefix ++ name) extsep)
      with false by (symmetry; apply Z.ltb_ge; lia).
    reflexivity.
  - assert (Erep : repeat extsep (S k) = repeat extsep k ++ [extsep]).
    { replace (S k) with (k + 1)%nat by lia. now rewrite repeat_app. }
    rewrite Erep, <- app_assoc. cbn [app].
    assert (Edot : rfind (prefix ++ repeat extsep k ++ extsep :: name) extsep
                   = Z.of_nat (length prefix) + Z.of_nat k).
    { unfold rfind. rewrite app_assoc, rfind_from_last by assumption.
      rewrite length_app, repeat_length. lia. }
    rewrite Edot.
    replace (Z.of_nat (length prefix) - 1 <? Z.of_nat (length prefix) + Z.of_nat k)
      with true by (symmetry; apply Z.ltb_lt; lia).
    cbv zeta.
    replace (Z.to_nat (Z.of_nat (length prefix) - 1 + 1)) with (length prefix) by lia.
    replace (Z.to_nat (Z.of_nat (length prefix) + Z.of_nat k
                       - (Z.of_nat (length prefix) - 1 + 1)))
      with (length (repeat extsep k)) by (rewrite repeat_length; lia).
    rewrite splitext_loop_spec.
    replace (existsb (fun c => negb (N.eqb c extsep)) (repeat extsep k)) with false.
    + reflexivity.
    + symmetry. apply not_true_is_false. intro H.
      apply existsb_exists in H as (x & Hx & Hne).
      apply repeat_spec in Hx. subst x. discriminate Hne.
Qed.

Lemma suffix_bin_clean : ~ In sep (lit "bin") /\ ~ In extsep (lit "bin").
Proof.
  split; intros [H|[H|[H|[]]]]; discriminate H.
Qed.

Lemma suffix_hex_clean : ~ In sep (lit "hex") /\ ~ In extsep (lit "hex").
Proof.
  split; intros [H|[H|[H|[]]]]; discriminate H.
Qed.

(** X7.  A path whose last component is a name, holding a character other than a
    dot, followed by [".bin"] goes to the header builder as it is: the run
    is the call of [generate_miniboot_header] on that path, in the same
    world. *)
Theorem bin_path_is_passed_through
    (env : environment) (args : arguments) (w : world) (prefix body : str) :
  dir_prefix prefix ->
  ~ In sep body ->
  existsb (fun c => negb (N.eqb c extsep)) body = true ->
  file args = prefix ++ body ++ lit ".bin" ->
  main env args w
  = generate_miniboot_header env (Some (file args)) (appname args) (output args)
      (verbose args) w.
Proof.
  intros Hp Hbody Hname Hfile.
  unfold main, getArguments, bind, check_if_binary.
  rewrite Hfile. change (lit ".bin") with (extsep :: lit "bin").
  rewrite splitext_component by (try apply suffix_bin_clean; assumption).
  reflexivity.
Qed.

Lemma bin_path_is_passed_through_witness :
  dir_prefix (lit "build/") /\
  ~ In sep (lit "fw.v2") /\
  existsb (fun c => negb (N.eqb c extsep)) (lit "fw.v2") = true /\
  main demo_env (demo_args (lit "build/fw.v2.bin") (lit "Demo") false) demo_world
  = generate_miniboot_header demo_env (Some (lit "build/fw.v2.bin")) (lit "Demo")
      (lit "out.eeprom") false demo_world.
Proof.
  assert (Hp : dir_prefix (lit "build/")) by (right; exists (lit "build"); reflexivity).
  assert (Hs : ~ In sep (lit "fw.v2"))
    by (intros [H|[H|[H|[H|[H|[]]]]]]; discriminate H).
  split; [exact Hp|]. split; [exact Hs|]. split; [reflexivity|].
  apply (bin_path_is_passed_through demo_env
           (demo_args (lit "build/fw.v2.bin") (lit "Demo") false) demo_world
           (lit "build/") (lit "fw.v2") Hp Hs); reflexivity.
Defined.

(** X8.  A path whose last component is such a name followed by [".hex"], with
    the conversion allowed: the converter is called once, on the path, to
    write the sibling [".bin"] file.  When it fails the run fails with its
    exception, nothing else done; when it succeeds the run goes on as the call
    of [generate_miniboot_header] on the sibling file, in the file system the
    converter left. *)
Theorem hex_path_is_converted
    (env : environment) (args : arguments) (w : world) (prefix body : str) :
  dir_prefix prefix ->
  ~ In sep body ->
  existsb (fun c => negb (N.eqb c extsep)) body = true ->
  file args = prefix ++ body ++ lit ".hex" ->
  dont_convert args = false ->
  main env args w
  = match run_command env (fs w) (objcopy_command (file args) (prefix ++ body)) with
    | Ok fs' =>
        generate_miniboot_header env (Some ((prefix ++ body) ++ lit ".bin"))
          (appname args) (output args) (verbose args)
          {| fs := fs';
             trace := trace w ++ [ESubrun (objcopy_command (file args) (prefix ++ body))] |}
    | Raise e =>
        (Raise e,
         {| fs := fs w;
            trace := trace w ++ [ESubrun (objcopy_command (file args) (prefix ++ body))] |})
    end.
Proof.
  intros Hp Hbody Hname Hfile Hflag.
  unfold main, getArguments, check_if_binary.
  rewrite Hfile, Hflag. change (lit ".hex") with (extsep :: lit "hex").
  rewrite splitext_component by (try apply suffix_hex_clean; assumption).
  change (str_eqb (extsep :: lit "hex") (lit ".bin")) with false.
  change (str_eqb (extsep :: lit "hex") (extsep :: lit "hex")) with true.
  cbv beta iota delta [negb bind subrun emit ret fs trace objcopy_command].
  destruct w as [f t]. cbv beta iota delta [fs trace].
  destruct (run_command env f _) as [fs'|e]; reflexivity.
Qed.

Lemma hex_path_is_converted_witness :
  dir_prefix [] /\
  ~ In sep (lit "fw") /\
  existsb (fun c => negb (N.eqb c extsep)) (lit "fw") = true /\
  main hex_env (demo_args (lit "fw.hex") (lit "Demo") false) hex_world
  = generate_miniboot_header hex_env (Some (lit "fw.bin")) (lit "Demo")
      (lit "out.eeprom") false
      {| fs := update hex_fs (lit "fw.bin")
                 {| st_ctime := 1700000050; readable := true;
                    content := [x01; x02; x03] |};
         trace := [ESubrun (objcopy_command (lit "fw.hex") (lit "fw"))] |} /\
  fst (main hex_env (demo_args (lit "fw.hex") (lit "Demo") false) hex_world) = Ok RNone.
Proof.
  assert (Hp : dir_prefix []) by (now left).
  assert (Hs : ~ In sep (lit "fw")) by (intros [H|[H|[]]]; discriminate H).
  split; [exact Hp|]. split; [exact Hs|]. split; [reflexivity|].
  split; [|vm_compute; reflexivity].
  apply (hex_path_is_converted hex_env
           (demo_args (lit "fw.hex") (lit "Demo") false) hex_world [] (lit "fw")
           Hp Hs); reflexivity.
Defined.

(** X9.  A path whose last component is dots followed by a name without a dot (a
    hidden file such as [".bin"], or a file with no extension inside a
    directory named ["out.bin"]) is refused: the run fails with the
    script's [TypeError] and leaves the world as it found it. *)
Theorem path_without_extension_is_refused
    (env : environment) (args : arguments) (w : world)
    (prefix name : str) (k : nat) :
  dir_prefix prefix ->
  ~ In sep name ->
  ~ In extsep name ->
  file args = prefix ++ repeat extsep k ++ name ->
  main env args w = (Raise (TypeError "Given file was not a .bin or a .hex"), w).
Proof.
  intros Hp Hsep Hdot Hfile.
  unfold main, getArguments, bind.
  rewrite check_if_binary_unrecognized.
  - reflexivity.
  - rewrite Hfile, splitext_no_extension by assumption. discriminate.
  - rewrite Hfile, splitext_no_extension by assumption. discriminate.
Qed.

Lemma path_without_extension_is_refused_witness :
  dir_prefix (lit "out.bin/") /\
  ~ In sep (lit "bin") /\
  ~ In extsep (lit "bin") /\
  main demo_env (demo_args (lit "out.bin/.bin") (lit "Demo") false) demo_world
  = (Raise (TypeError "Given file was not a .bin or a .hex"), demo_world).
Proof.
  assert (Hp : dir_prefix (lit "out.bin/"))
    by (right; exists (lit "out.bin"); reflexivity).
  split; [exact Hp|]. split; [apply suffix_bin_clean|]. split; [apply suffix_bin_clean|].
  apply (path_without_extension_is_refused demo_env
           (demo_args (lit "out.bin/.bin") (lit "Demo") false) demo_world
           (lit "out.bin/") (lit "bin") 1 Hp
           (proj1 suffix_bin_clean) (proj2 suffix_bin_clean)).
  reflexivity.
Defined.

(** X10.  Whatever path [check_if_binary] accepts, the path it hands on ends in
    [".bin"]: it is the path given, or the path given with its [".hex"]
    replaced. *)
Theorem accepted_path_ends_in_bin
    (env : environment) (binary_file : str) (dont_auto_convert : bool)
    (check new_filepath : str) (w w' : world) :
  check_if_binary env binary_file dont_auto_convert check w
  = (Ok (true, new_filepath), w') ->
  exists stem,
    new_filepath = stem ++ lit ".bin" /\
    (check = stem ++ lit ".bin" \/ check = stem ++ lit ".hex").
Proof.
  unfold check_if_binary.
  pose proof (splitext_recombine check) as Hre.
  destruct (splitext check) as [file_name file_ext]. cbn [fst snd] in Hre.
  destruct (str_eqb file_ext (lit ".bin")) eqn:Ebin.
  { apply str_eqb_eq in Ebin. subst file_ext.
    intro H. injection H as <- _. exists file_name. auto. }
  destruct (str_eqb file_ext (lit ".hex")) eqn:Ehex; [|discriminate].
  apply str_eqb_eq in Ehex. subst file_ext.
  destruct dont_auto_convert; cbn [negb]; [discriminate|].
  destruct w as [f t]. cbv beta iota delta [bind subrun emit ret fs trace].
  destruct (run_command env f _); [|discriminate].
  intro H. injection H as <- _. exists file_name. auto.
Qed.

Lemma accepted_path_ends_in_bin_witness :
  check_if_binary hex_env (lit "fw.hex") false (lit "fw.hex") hex_world
  = (Ok (true, lit "fw.bin"),
     snd (check_if_binary hex_env (lit "fw.hex") false (lit "fw.hex") hex_world)) /\
  exists stem,
    lit "fw.bin" = stem ++ lit ".bin" /\
    (lit "fw.hex" = stem ++ lit ".bin" \/ lit "fw.hex" = stem ++ lit ".hex").
Proof.
  split; [vm_compute; reflexivity|].
  apply (accepted_path_ends_in_bin hex_env (lit "fw.hex") false (lit "fw.hex")
           (lit "fw.bin") hex_world
           (snd (check_if_binary hex_env (lit "fw.hex") false (lit "fw.hex") hex_world))).
  vm_compute; reflexivity.
Defined.

(** ** Whole runs on a [".bin"] file *)

Lemma main_on_bin (env : environment) (args : arguments) (w : world) :
  snd (splitext (file args)) = lit ".bin" ->
  file args <> [] /\
  main env args w
  = generate_miniboot_header env (Some (file args)) (appname args) (output args)
      (verbose args) w.
Proof.
  intro Hext. split.
  - intro E. rewrite E in Hext. discriminate Hext.
  - unfold main, getArguments, bind, check_if_binary.
    destruct (splitext (file args)) as [file_name file_ext]. cbn [snd] in Hext.
    subst file_ext. reflexivity.
Qed.







(** X13.  A readable [".bin"] file of 65536 bytes or more: the run fails with
    [OverflowError] once the file has been read, and the file system is as
    it was, whatever the name, the timestamps and the output path. *)
Theorem oversized_bin_run_fails
    (env : environment) (args : arguments) (w : world) (i : inode) :
  snd (splitext (file args)) = lit ".bin" ->
  fs w (file args) = Some i ->
  readable i = true ->
  65536 <= Z.of_nat (length (content i)) ->
  main env args w
  = (Raise (OverflowError "int too big to convert"),
     {| fs := fs w;
        trace := trace w ++ [EStat (file args); EOpenRead (file args)] |}).
Proof.
  intros Hext Hfs Hread Hsize.
  destruct (main_on_bin env args w Hext) as [Hne ->].
  destruct (file args) as [|c path]; [contradiction|].
  destruct w as [f t]. cbn [fs trace] in *.
  cbv beta iota delta
    [generate_miniboot_header bind stat open_read emit lift open_write file_write
     print ret fs trace].
  rewrite Hfs. cbv beta iota delta [fs trace]. rewrite Hfs, Hread.
  cbv beta iota zeta delta [fs trace].
  unfold eeprom_payload_of. rewrite oversized_payload_raises by assumption.
  cbn [rbind]. now rewrite <- app_assoc.
Qed.

Lemma oversized_bin_run_fails_witness :
  snd (splitext (lit "big.bin")) = lit ".bin" /\
  65536 <= Z.of_nat (length (repeat x00 (Z.to_nat 65536))) /\
  main demo_env (demo_args (lit "big.bin") (lit "Demo") false) big_world
  = (Raise (OverflowError "int too big to convert"),
     {| fs := big_fs; trace := [EStat (lit "big.bin"); EOpenRead (lit "big.bin")] |}).
Proof.
  split; [reflexivity|].
  assert (H : 65536 <= Z.of_nat (length (repeat x00 (Z.to_nat 65536))))
    by (rewrite repeat_length; lia).
  split; [exact H|].
  apply (oversized_bin_run_fails demo_env
           (demo_args (lit "big.bin") (lit "Demo") false) big_world
           {| st_ctime := 1700000000; readable := true;
              content := repeat x00 (Z.to_nat 65536) |}
           eq_refl eq_refl eq_refl H).
Defined.

(** ** What a run leaves alone *)

Lemma generate_frame
    (env : environment) (binary_file : option str)
    (application_name output_file : str) (print_header_result : bool)
    (w : world) (q : str) :
  q <> output_file ->
  fs (snd (generate_miniboot_header env binary_file application_name output_file
             print_header_result w)) q
  = fs w q.
Proof.
  intro Hq. apply str_eqb_neq in Hq.
  destruct binary_file as [[|c path]|]; [reflexivity| |reflexivity].
  destruct w as [f t].
  cbv beta iota delta
    [generate_miniboot_header bind stat open_read emit lift open_write file_write
     print ret fs trace].
  destruct (f (c :: path)) as [i|] eqn:Efs; cbv beta iota delta [fs trace];
    [|reflexivity].
  rewrite Efs. destruct (readable i); cbv beta iota zeta delta [fs trace];
    [|reflexivity].
  destruct (eeprom_payload_of (content i) application_name (st_ctime i) (now env));
    cbv beta iota zeta delta [fs trace]; [|reflexivity].
  destruct (creatable env output_file); cbv beta iota zeta delta [fs trace];
    [|reflexivity].
  destruct (write_fault env output_file a); cbv beta iota zeta delta [fs trace].
  - cbn [snd fs]. unfold update. now rewrite Hq.
  - destruct print_header_result; cbv beta iota zeta delta [fs trace];
      cbn [snd fs]; unfold update; now rewrite Hq.
Qed.

(** X14.  Unless it calls the converter, a run changes no file but the output
    file: every other path holds after the run what it held before, whether
    the run succeeds or fails. *)
Theorem run_touches_only_output
    (env : environment) (args : arguments) (w : world) (q : str) :
  snd (splitext (file args)) <> lit ".hex" \/ dont_convert args = true ->
  q <> output args ->
  fs (snd (main env args w)) q = fs w q.
Proof.
  intros Hconv Hq.
  unfold main, getArguments, bind, check_if_binary.
  destruct (splitext (file args)) as [file_name file_ext]. cbn [snd] in Hconv.
  destruct (str_eqb file_ext (lit ".bin")).
  { cbv beta iota delta [ret]. now apply generate_frame. }
  destruct (str_eqb file_ext (lit ".hex")) eqn:Ehex; [|reflexivity].
  apply str_eqb_eq in Ehex.
  destruct Hconv as [Hne | ->]; [contradiction|]. reflexivity.
Qed.

Lemma run_touches_only_output_witness :
  (snd (splitext (lit "fw.bin")) <> lit ".hex" \/ false = true) /\
  lit "fw.bin" <> lit "out.eeprom" /\
  fs (snd (main demo_env (demo_args (lit "fw.bin") (lit "Demo") false) demo_world))
     (lit "fw.bin")
  = demo_fs (lit "fw.bin").
Proof.
  assert (H1 : snd (splitext (lit "fw.bin")) <> lit ".hex" \/ false = true)
    by (left; vm_compute; discriminate).
  assert (H2 : lit "fw.bin" <> lit "out.eeprom") by (vm_compute; discriminate).
  split; [exact H1|]. split; [exact H2|].
  exact (run_touches_only_output demo_env
           (demo_args (lit "fw.bin") (lit "Demo") false) demo_world (lit "fw.bin")
           H1 H2).
Defined.


(** ** The converter and the clock *)

Lemma generate_never_converts
    (env : environment) (binary_file : option str)
    (application_name output_file : str) (print_header_result : bool) (w : world) :
  exists evs,
    trace (snd (generate_miniboot_header env binary_file application_name
                  output_file print_header_result w))
    = trace w ++ evs /\
    filter is_subrun evs = [].
Proof.
  destruct binary_file as [[|c path]|].
  1,3: exists []; cbn; now rewrite app_nil_r.
  destruct w as [f t].
  cbv beta iota delta
    [generate_miniboot_header bind stat open_read emit lift open_write file_write
     print ret fs trace].
  destruct (f (c :: path)) as [i|] eqn:Efs; cbv beta iota delta [fs trace].
  2:{ cbn [snd trace]. eexists. split; reflexivity. }
  rewrite Efs. destruct (readable i); cbv beta iota zeta delta [fs trace].
  2:{ cbn [snd trace]. eexists. split; reflexivity. }
  destruct (eeprom_payload_of (content i) application_name (st_ctime i) (now env));
    cbv beta iota zeta delta [fs trace].
  2:{ cbn [snd trace]. eexists. rewrite <- !app_assoc. split; reflexivity. }
  destruct (creatable env output_file); cbv beta iota zeta delta [fs trace].
  2:{ cbn [snd trace]. eexists. rewrite <- !app_assoc. split; reflexivity. }
  destruct (write_fault env output_file a); cbv beta iota zeta delta [fs trace].
  { cbn [snd trace]. eexists. rewrite <- !app_assoc. split; reflexivity. }
  destruct print_header_result; cbv beta iota zeta delta [fs trace];
    cbn [snd trace]; eexists; rewrite <- !app_assoc; split; reflexivity.
Qed.

(** X16.  In a run the converter is called once when the extension is [".hex"]
    and the conversion is allowed, with the input path and the name of the
    sibling [".bin"] file, and is not called otherwise; no other command is
    ever run. *)
Theorem converter_called_exactly_when_needed
    (env : environment) (args : arguments) (w : world) :
  exists evs,
    trace (snd (main env args w)) = trace w ++ evs /\
    filter is_subrun evs
    = if str_eqb (snd (splitext (file args))) (lit ".hex") && negb (dont_convert args)
      then [ESubrun (objcopy_command (file args) (fst (splitext (file args))))]
      else [].
Proof.
  unfold main, getArguments, check_if_binary.
  destruct (splitext (file args)) as [file_name file_ext]. cbn [fst snd].
  destruct (str_eqb file_ext (lit ".bin")) eqn:Ebin.
  { apply str_eqb_eq in Ebin. subst file_ext.
    change (str_eqb (lit ".bin") (lit ".hex")) with false. cbn [andb].
    unfold bind at 1. cbv beta iota delta [ret]. apply generate_never_converts. }
  destruct (str_eqb file_ext (lit ".hex")); cbn [andb].
  2:{ exists []. cbn. now rewrite app_nil_r. }
  destruct (dont_convert args); cbn [negb].
  { exists []. cbn. now rewrite app_nil_r. }
  destruct w as [f t].
  cbv beta iota delta [bind subrun emit ret raise objcopy_command negb].
  cbn [fs trace].
  destruct (run_command env f _) as [fs'|e].
  - match goal with
    | |- context [generate_miniboot_header ?a ?b ?c ?d ?v ?w0] =>
        destruct (generate_never_converts a b c d v w0) as (evs & Ht & Hevs)
    end.
    cbn [trace] in Ht. rewrite Ht, <- app_assoc. eexists. split; [reflexivity|].
    cbn [app filter is_subrun]. now rewrite Hevs.
  - cbn [snd trace]. eexists. split; reflexivity.
Qed.

(** X17.  When the clock does not fit 32 bits, or one of the first ten characters
    of the name is a surrogate, no run succeeds and no run opens or writes
    a file. *)
Theorem run_fails_without_header
    (env : environment) (args : arguments) (w w' : world) (r : result retval) :
  ~ (0 <= now env < 2 ^ 32) \/
  forallb encodable (firstn 10 (appname args)) = false ->
  main env args w = (r, w') ->
  (exists e, r = Raise e) /\
  exists evs, trace w' = trace w ++ evs /\ existsb is_output evs = false.
Proof.
  intros Hbad.
  assert (Hno : forall payload ctime header,
             eeprom_metadata_of payload (appname args) ctime (now env) = Ok header ->
             False).
  { intros payload ctime header H.
    apply eeprom_metadata_of_inv in H as (name & Hname & _ & _ & Hnow & _).
    destruct Hbad as [Hbad|Hbad]; [contradiction|].
    assert (Henc : forallb encodable (app_name_of (appname args)) = true)
      by (apply utf8_encode_ok_iff; eauto).
    rewrite forallb_app_name_of in Henc by reflexivity. congruence. }
  unfold main, getArguments. unfold bind at 1.
  destruct (check_if_binary env (file args) (dont_convert args) (file args) w)
    as [[[is_valid new_filepath]|e] w1] eqn:Echeck.
  2:{ intro H. injection H as <- <-.
      apply check_if_binary_run in Echeck as [(evs & Ht & Hout) _]. eauto. }
  apply check_if_binary_run in Echeck as [(pre & Hpre & Hout) Hpath].
  destruct is_valid; cbn [negb].
  2:{ intro H. injection H as <- <-. eauto. }
  specialize (Hpath new_filepath eq_refl).
  destruct new_filepath as [|c path]; [contradiction|].
  intro H. apply generate_run in H
    as [(e & evs & -> & Ht & Hevs)
       |(payload & ctime & header & stored & prints & Hmeta & _)].
  - split; [eauto|]. exists (pre ++ evs).
    rewrite Ht, Hpre, <- app_assoc, existsb_app, Hout, Hevs. auto.
  - exfalso. eapply Hno, Hmeta.
Qed.

Lemma run_fails_without_header_witness :
  (~ (0 <= now late_env < 2 ^ 32) \/
   forallb encodable (firstn 10 (lit "Demo")) = false) /\
  fst (main late_env (demo_args (lit "fw.bin") (lit "Demo") false) demo_world)
  = Raise (OverflowError "int too big to convert") /\
  (exists e, Raise (OverflowError "int too big to convert") = Raise e :> result retval) /\
  exists evs,
    trace (snd (main late_env (demo_args (lit "fw.bin") (lit "Demo") false) demo_world))
    = trace demo_world ++ evs /\
    existsb is_output evs = false.
Proof.
  assert (H : ~ (0 <= now late_env < 2 ^ 32) \/
              forallb encodable (firstn 10 (lit "Demo")) = false)
    by (left; cbn [now late_env]; lia).
  split; [exact H|]. split; [vm_compute; reflexivity|].
  apply (run_fails_without_header late_env
           (demo_args (lit "fw.bin") (lit "Demo") false) demo_world
           (snd (main late_env (demo_args (lit "fw.bin") (lit "Demo") false) demo_world))
           (Raise (OverflowError "int too big to convert")) H).
  vm_compute; reflexivity.
Defined.
